(** * A model of [src/utils/gitingest_manager.py]

    The module [GitIngestManager] drives an external ingestion command,
    counts tokens with an external counter, resolves a release version,
    renames the artifact, persists metadata and a JSON log, and cleans old
    artifacts.  The Python code is embedded below as Rocq functions over an
    explicit world (the manager's in-memory configuration, the YAML file,
    the output directory, the printed lines) and an environment record that
    gives the behaviour of the external programs ([gitingest], the token
    counter, [git], the HTTP endpoint) and of the library functions whose
    internals do not matter here ([hashlib.md5], [os.path.expandvars]).

    Text is modelled as [string]: one [ascii] character stands for one
    character of a decoded Python [str]. *)

From Stdlib Require Import ZArith String Ascii Bool List Lia Sorted.
From stdpp Require Import base gmap strings list.

Set Warnings "-register-all".
Open Scope string_scope.
Open Scope Z_scope.
Import ListNotations.

(* ------------------------------------------------------------------ *)
(** ** Python [str] helpers *)

Module Py.

(** [str.isspace] on the characters below 256. *)
Definition is_space (c : ascii) : bool :=
  let n := nat_of_ascii c in
  ((9 <=? n) && (n <=? 13))%nat || ((28 <=? n) && (n <=? 32))%nat
  || (n =? 133)%nat || (n =? 160)%nat.

Fixpoint lstrip (s : string) : string :=
  match s with
  | EmptyString => EmptyString
  | String c s' => if is_space c then lstrip s' else s
  end.

Definition rev_string (s : string) : string :=
  string_of_list_ascii (rev (list_ascii_of_string s)).

(** [s.strip()] *)
Definition strip (s : string) : string := rev_string (lstrip (rev_string (lstrip s))).

(** [s.split()] : maximal runs of non-whitespace characters. *)
Fixpoint split_ws_aux (s : string) (cur : string) : list string :=
  match s with
  | EmptyString => if String.eqb cur EmptyString then [] else [rev_string cur]
  | String c s' =>
      if is_space c
      then (if String.eqb cur EmptyString then split_ws_aux s' EmptyString
            else rev_string cur :: split_ws_aux s' EmptyString)
      else split_ws_aux s' (String c cur)
  end.

Definition split_ws (s : string) : list string := split_ws_aux s EmptyString.

(** [s.split(sep)] for a one-character separator. *)
Fixpoint split_on_aux (sep : ascii) (s : string) (cur : string) : list string :=
  match s with
  | EmptyString => [rev_string cur]
  | String c s' =>
      if Ascii.eqb c sep then rev_string cur :: split_on_aux sep s' EmptyString
      else split_on_aux sep s' (String c cur)
  end.

Definition split_on (sep : ascii) (s : string) : list string := split_on_aux sep s EmptyString.

Fixpoint startswith (p s : string) : bool :=
  match p, s with
  | EmptyString, _ => true
  | String a p', String b s' => Ascii.eqb a b && startswith p' s'
  | _, _ => false
  end.

Definition endswith (p s : string) : bool :=
  startswith (rev_string p) (rev_string s).

(** [sub in s] *)
Fixpoint contains (sub s : string) : bool :=
  startswith sub s ||
  match s with
  | EmptyString => false
  | String _ s' => contains sub s'
  end.

(** [s.count(sub)] for a non-empty [sub]: non-overlapping occurrences,
    scanned from the left. *)
Fixpoint count_aux (fuel : nat) (sub s : string) : Z :=
  match fuel with
  | O => 0
  | S f =>
      match s with
      | EmptyString => 0
      | String _ s' =>
          if startswith sub s
          then 1 + count_aux f sub (substring (String.length sub) (String.length s) s)
          else count_aux f sub s'
      end
  end.

Definition count (sub s : string) : Z := count_aux (S (String.length s)) sub s.

(** [s[n:]] and [s[:-n]] for [0 <= n]. *)
Definition drop (n : nat) (s : string) : string := substring n (String.length s) s.
Definition drop_end (n : nat) (s : string) : string := substring 0 (String.length s - n) s.

(** [l[-2:]] *)
Definition last_two {A} (l : list A) : list A := skipn (length l - 2) l.

(** [l[k:]] for a Python [int] [k], negative indices counting from the end. *)
Definition slice_from {A} (k : Z) (l : list A) : list A :=
  if 0 <=? k then skipn (Z.to_nat k) l
  else skipn (length l - Z.to_nat (- k)) l.

(** [str(n)] for an [int]. *)
Definition digit (d : Z) : ascii := ascii_of_nat (48 + Z.to_nat d).

Fixpoint dec_aux (fuel : nat) (n : Z) (acc : string) : string :=
  match fuel with
  | O => acc
  | S f =>
      let acc' := String (digit (n mod 10)) acc in
      if n <? 10 then acc' else dec_aux f (n / 10) acc'
  end.

Definition str_nat (n : Z) : string := dec_aux (S (Z.to_nat (Z.log2 n))) n EmptyString.

Definition str_int (z : Z) : string :=
  if z <? 0 then "-" ++ str_nat (- z) else str_nat z.

(** [f"{n:,}"] : decimal digits grouped by three with commas. *)
Fixpoint group3 (ds : list ascii) : list ascii :=
  match ds with
  | a :: b :: c :: (_ :: _) as rest => a :: b :: c :: ","%char :: group3 rest
  | _ => ds
  end.

Definition str_commas (z : Z) : string :=
  let body (n : Z) := string_of_list_ascii (rev (group3 (rev (list_ascii_of_string (str_nat n))))) in
  if z <? 0 then "-" ++ body (- z) else body z.

(** [int(tok)] for a token without surrounding whitespace, base 10:
    an optional sign, then digits with single underscores between them. *)
Definition is_digit (c : ascii) : bool :=
  let n := nat_of_ascii c in ((48 <=? n) && (n <=? 57))%nat.

Fixpoint digits_val (s : string) (acc : Z) (prev_digit : bool) : option Z :=
  match s with
  | EmptyString => if prev_digit then Some acc else None
  | String c s' =>
      if is_digit c then digits_val s' (10 * acc + Z.of_nat (nat_of_ascii c - 48)) true
      else if Ascii.eqb c "_"%char && prev_digit then digits_val s' acc false
      else None
  end.

(** CPython refuses to convert a decimal string of more than
    [sys.get_int_max_str_digits()] digits, 4300 by default, with a
    [ValueError]; [str] of an [int] with more digits fails in the same
    way. *)
Definition max_str_digits : nat := 4300.

Definition digit_count (s : string) : nat :=
  length (List.filter is_digit (list_ascii_of_string s)).

Definition int_of_token (s : string) : option Z :=
  if (max_str_digits <? digit_count s)%nat then None else
  match s with
  | String "-"%char s' => option_map Z.opp (digits_val s' 0 false)
  | String "+"%char s' => digits_val s' 0 false
  | _ => digits_val s 0 false
  end.

(** [str(PurePosixPath(p))]: the root ([/], or [//] for exactly two
    leading slashes), then the components without empty ones and [.],
    joined by [/]; an empty result is [.]. *)
Definition path_norm (p : string) : string :=
  let root := if startswith "/" p
              then (if startswith "//" p && negb (startswith "///" p) then "//" else "/")
              else EmptyString in
  let parts := List.filter (fun x => negb (String.eqb x EmptyString) && negb (String.eqb x "."))
                 (split_on "/"%char p) in
  match root, parts with
  | EmptyString, [] => "."
  | _, _ => root ++ String.concat "/" parts
  end.

(** [universal newlines] of a file opened in text mode: [\r\n] and a
    lone [\r] read as [\n]. *)
Fixpoint univ_nl (s : string) : string :=
  match s with
  | EmptyString => EmptyString
  | String c s' =>
      if (nat_of_ascii c =? 13)%nat then
        String (ascii_of_nat 10)
          (match s' with
           | String d s'' => if (nat_of_ascii d =? 10)%nat then univ_nl s'' else univ_nl s'
           | EmptyString => EmptyString
           end)
      else String c (univ_nl s')
  end.

(** A lower-case hexadecimal digit. *)
Definition hex_digit (d : nat) : ascii :=
  if (d <? 10)%nat then ascii_of_nat (48 + d) else ascii_of_nat (87 + d).

Definition hex2 (n : nat) : string :=
  String (hex_digit (n / 16)) (String (hex_digit (n mod 16)) EmptyString).

(** One character of [repr(s)] quoted with [q]: the quote and the
    backslash escaped, [\t], [\n], [\r], and [\xhh] for the
    characters [str.isprintable] rejects (below 32, 127 to 160, 173). *)
Definition repr_char (q c : ascii) : string :=
  let n := nat_of_ascii c in
  if Ascii.eqb c q || (n =? 92)%nat then String (ascii_of_nat 92) (String c EmptyString)
  else if (n =? 9)%nat then String (ascii_of_nat 92) "t"
  else if (n =? 10)%nat then String (ascii_of_nat 92) "n"
  else if (n =? 13)%nat then String (ascii_of_nat 92) "r"
  else if (n <? 32)%nat || (n =? 127)%nat || ((128 <=? n) && (n <=? 160))%nat || (n =? 173)%nat
  then String (ascii_of_nat 92) ("x" ++ hex2 n)
  else String c EmptyString.

(** [repr(s)]: single quotes, or double quotes when [s] holds a single
    quote and no double quote. *)
Definition repr_str (s : string) : string :=
  let q := if contains "'" s && negb (contains (String (ascii_of_nat 34) EmptyString) s)
           then ascii_of_nat 34 else "'"%char in
  String q (String.concat EmptyString (map (repr_char q) (list_ascii_of_string s)) ++ String q EmptyString).

End Py.

(* ------------------------------------------------------------------ *)
(** ** Exceptions and a state/exception monad *)

(** The Python exceptions the modelled code can raise or catch; those
    whose text [str(e)] the code prints carry it. *)
Inductive exn :=
| CalledProcessError (returncode : Z) (stderr : string)
| FileNotFoundError
| KeyError
| ValueError
| IndexError
| AttributeError (msg : string)
| OverflowError
| JSONDecodeError
| UnicodeDecodeError
| RequestException (msg : string)
| SystemExit (code : Z).

Inductive res (A : Type) :=
| Ok (a : A)
| Raise (e : exn).
Arguments Ok {A} a.
Arguments Raise {A} e.

(** [subprocess.run(..., capture_output=True, text=True)] as the external
    program leaves it: the binary is missing, or it ran and exited. *)
Inductive proc :=
| PNotFound
| PExit (returncode : Z) (stdout stderr : string).

(** [str(l)] of a list of [str]. *)
Definition py_repr_list (l : list string) : string :=
  "[" ++ String.concat ", " (map Py.repr_str l) ++ "]".

(** The members of [signal.Signals] on Linux, by number, under the name
    [repr] shows ([SIGABRT] for 6, [SIGCHLD] for 17, [SIGIO] for 29). *)
Definition signal_name (n : Z) : option string :=
  match n with
  | 1 => Some "SIGHUP" | 2 => Some "SIGINT" | 3 => Some "SIGQUIT" | 4 => Some "SIGILL"
  | 5 => Some "SIGTRAP" | 6 => Some "SIGABRT" | 7 => Some "SIGBUS" | 8 => Some "SIGFPE"
  | 9 => Some "SIGKILL" | 10 => Some "SIGUSR1" | 11 => Some "SIGSEGV" | 12 => Some "SIGUSR2"
  | 13 => Some "SIGPIPE" | 14 => Some "SIGALRM" | 15 => Some "SIGTERM" | 16 => Some "SIGSTKFLT"
  | 17 => Some "SIGCHLD" | 18 => Some "SIGCONT" | 19 => Some "SIGSTOP" | 20 => Some "SIGTSTP"
  | 21 => Some "SIGTTIN" | 22 => Some "SIGTTOU" | 23 => Some "SIGURG" | 24 => Some "SIGXCPU"
  | 25 => Some "SIGXFSZ" | 26 => Some "SIGVTALRM" | 27 => Some "SIGPROF" | 28 => Some "SIGWINCH"
  | 29 => Some "SIGIO" | 30 => Some "SIGPWR" | 31 => Some "SIGSYS" | 34 => Some "SIGRTMIN"
  | 64 => Some "SIGRTMAX"
  | _ => None
  end.

(** [str(e)] of a [CalledProcessError] ([subprocess.CalledProcessError.__str__]):
    a negative return code is a signal, shown as [repr(signal.Signals(-c))]
    when the number is a member and as [unknown signal] otherwise. *)
Definition cpe_str (cmd : list string) (code : Z) : string :=
  if code <? 0 then
    match signal_name (- code) with
    | Some nm => "Command '" ++ py_repr_list cmd ++ "' died with <Signals." ++ nm ++ ": "
                 ++ Py.str_int (- code) ++ ">."
    | None => "Command '" ++ py_repr_list cmd ++ "' died with unknown signal "
              ++ Py.str_int (- code) ++ "."
    end
  else
    "Command '" ++ py_repr_list cmd ++ "' returned non-zero exit status "
    ++ Py.str_int code ++ ".".

(** [subprocess.run(cmd, ..., check=True)] *)
Definition run_checked (p : proc) : res (string * string) :=
  match p with
  | PNotFound => Raise FileNotFoundError
  | PExit 0 out err => Ok (out, err)
  | PExit c _ err => Raise (CalledProcessError c err)
  end.

(* ------------------------------------------------------------------ *)
(** ** [_format_token_count] *)

Module Fmt.

(** Round-half-even of [a / b], [0 < b]. *)
Definition rhe (a b : Z) : Z :=
  let q := a / b in
  let r := a mod b in
  if 2 * r <? b then q
  else if b <? 2 * r then q + 1
  else if Z.even q then q else q + 1.

(** [floor (a / (b * 2^e))] for an exponent [e] of either sign. *)
Definition scaled_floor (a b e : Z) : Z :=
  if 0 <=? e then a / (b * 2 ^ e) else (a * 2 ^ (- e)) / b.

Definition scaled_rhe (a b e : Z) : Z :=
  if 0 <=? e then rhe a (b * 2 ^ e) else rhe (a * 2 ^ (- e)) b.

(** The binary exponent of the double nearest to [a / b], [b <= a]:
    the [e] with [2^52 <= a / (b 2^e) < 2^53]. *)
Definition exponent (a b : Z) : Z :=
  let e0 := Z.log2 a - Z.log2 b - 52 in
  if scaled_floor a b e0 <? 2 ^ 52 then e0 - 1 else e0.

(** Python's [count / 1_000_000] for [1_000_000 <= count]: the quotient
    rounded to the nearest double (ties to even), given as a mantissa and
    an exponent; [OverflowError] when it reaches [2^1024]. *)
Definition true_div (a b : Z) : res (Z * Z) :=
  let e := exponent a b in
  let m := scaled_rhe a b e in
  if (0 <=? e) && (2 ^ 1024 <=? m * 2 ^ e) then Raise OverflowError else Ok (m, e).

(** [f"{x:.1f}"] for the double [x = m * 2^e >= 0]: the exact binary value
    rounded to one decimal, ties to even. *)
Definition format_1f (m e : Z) : string :=
  let n := if 0 <=? e then 10 * m * 2 ^ e else rhe (10 * m) (2 ^ (- e)) in
  Py.str_nat (n / 10) ++ "." ++ String (Py.digit (n mod 10)) EmptyString.

End Fmt.

(** [GitIngestManager._format_token_count] *)
Definition _format_token_count (count : Z) : res string :=
  if 1000000 <=? count then
    match Fmt.true_div count 1000000 with
    | Ok (m, e) => Ok (Fmt.format_1f m e ++ "M")
    | Raise ex => Raise ex
    end
  else if 1000 <=? count then Ok (Py.str_int (count / 1000) ++ "k")
  else Ok (Py.str_int count).

(* ------------------------------------------------------------------ *)
(** ** JSON values, file contents, the configuration *)

(** A decoded JSON document (numbers are the integers the log holds; an
    object is the list of its members, keys distinct). *)
Inductive json :=
| JNull
| JBool (b : bool)
| JInt (z : Z)
| JStr (s : string)
| JArr (l : list json)
| JObj (kv : list (string * json)).

(** [type(v).__name__] of the Python value [json.load] returns. *)
Definition py_type_name (v : json) : string :=
  match v with
  | JNull => "NoneType"
  | JBool _ => "bool"
  | JInt _ => "int"
  | JStr _ => "str"
  | JArr _ => "list"
  | JObj _ => "dict"
  end.

(** The text of the [AttributeError] for [x.attr] on a value of type
    [tp]. *)
Definition attr_error (tp attr : string) : string :=
  "'" ++ tp ++ "' object has no attribute '" ++ attr ++ "'".

Fixpoint assoc {A} (k : string) (l : list (string * A)) : option A :=
  match l with
  | [] => None
  | (k', v) :: l' => if String.eqb k k' then Some v else assoc k l'
  end.

(** [d[k] = v] on an ordered dictionary with the key [k]. *)
Fixpoint assoc_set {A} (k : string) (v : A) (l : list (string * A)) : list (string * A) :=
  match l with
  | [] => [(k, v)]
  | (k', v') :: l' => if String.eqb k k' then (k', v) :: l' else (k', v') :: assoc_set k v l'
  end.

(** The double-quote character. *)
Definition dq : string := String (ascii_of_nat 34) EmptyString.

(** One character of a JSON string as [json.dump] writes it
    ([ensure_ascii=True]): the quote, the backslash and the control
    characters escaped, every character outside [' '..'~'] as [\u00hh]. *)
Definition json_char (c : ascii) : string :=
  let n := nat_of_ascii c in
  let bs := String (ascii_of_nat 92) in
  if (n =? 34)%nat then bs dq
  else if (n =? 92)%nat then bs (bs EmptyString)
  else if (n =? 8)%nat then bs "b"
  else if (n =? 12)%nat then bs "f"
  else if (n =? 10)%nat then bs "n"
  else if (n =? 13)%nat then bs "r"
  else if (n =? 9)%nat then bs "t"
  else if ((32 <=? n) && (n <=? 126))%nat then String c EmptyString
  else bs ("u00" ++ Py.hex2 n).

Definition json_str (s : string) : string :=
  dq ++ String.concat EmptyString (map json_char (list_ascii_of_string s)) ++ dq.

(** A line break followed by the indentation of [level] ([indent=2]). *)
Definition json_nl (level : nat) : string :=
  String (ascii_of_nat 10) (string_of_list_ascii (repeat " "%char (2 * level))).

(** [json.dump(v, f, indent=2)] at nesting [level]: what the file holds,
    and what reading it back as text gives. *)
Fixpoint json_dump (level : nat) (v : json) : string :=
  match v with
  | JNull => "null"
  | JBool b => if b then "true" else "false"
  | JInt z => Py.str_int z
  | JStr s => json_str s
  | JArr [] => "[]"
  | JArr l =>
      "[" ++ json_nl (S level)
      ++ String.concat ("," ++ json_nl (S level)) (map (json_dump (S level)) l)
      ++ json_nl level ++ "]"
  | JObj [] => "{}"
  | JObj kv =>
      "{" ++ json_nl (S level)
      ++ String.concat ("," ++ json_nl (S level))
           (map (fun '(k, x) => json_str k ++ ": " ++ json_dump (S level) x) kv)
      ++ json_nl level ++ "}"
  end.

(** The number of bytes of [s] in UTF-8: characters up to 127 take one
    byte, those from 128 to 255 two. *)
Definition utf8_size (s : string) : Z :=
  fold_right (fun c n => (if (nat_of_ascii c <? 128)%nat then 1 else 2) + n) 0 (list_ascii_of_string s).

(** The content of a file: UTF-8 text ([json.load] fails on it), bytes
    that do not decode as UTF-8, or a JSON document as [json.dump] writes
    it. *)
Inductive content :=
| Text (s : string)
| Bytes (b : list Byte.byte)
| Json (v : json).

(** [stat().st_size]: the bytes on disk. A text is stored in UTF-8
    (a character of code 128 to 255 takes two bytes), a JSON document as
    [json.dump(..., indent=2)] writes it. *)
Definition content_size (c : content) : Z :=
  match c with
  | Text s => utf8_size s
  | Bytes b => Z.of_nat (length b)
  | Json v => utf8_size (json_dump 0 v)
  end.

Record file := mkFile { fdata : content; fmtime : Z }.

Record settings := mkSettings {
  output_dir : string;
  token_counter : string;
  default_max_size : option Z
}.

Record ingest_metadata := mkMeta {
  last_updated : string;
  token_count : Z;
  character_count : Z;
  file_count : Z;
  last_file : string;
  meta_profile : string;
  hash : string
}.

(** A repository entry; a missing [exclusions] key reads as [[]]. *)
Record repo_config := mkRepo {
  source : string;
  description : string;
  exclusions : list string;
  metadata : option ingest_metadata
}.

Record profile_config := mkProfile {
  profile_description : string;
  additional_exclusions : list string
}.

Record config := mkConfig {
  cfg_settings : settings;
  repositories : list (string * repo_config);
  profiles : list (string * profile_config)
}.

(** The state the manager works on: [self.config]; the document in the
    configuration file; the entries of [self.output_dir] by name; whether
    [self.token_counter] exists; the [strftime] stamp of [datetime.now()];
    the modification time written files get; the printed lines. *)
Record world := mkWorld {
  w_config : config;
  w_config_file : config;
  w_odir : gmap string file;
  w_tc_exists : bool;
  w_now : string;
  w_clock : Z;
  w_out : list string
}.

(** [requests.get(url, timeout=5)]: it raises a [RequestException]
    (timeout, connection error) whose text is [msg], or answers with a
    status and a body that [.json()] decodes ([inr msg]: [.json()] raises
    [requests.exceptions.JSONDecodeError], a [RequestException], whose
    text is [msg]). *)
Inductive http_result :=
| HttpRaise (msg : string)
| HttpResp (status : Z) (body : json + string).

(** The external programs and the library functions the code calls. *)
Record env := mkEnv {
  run_gitingest : list string -> proc * option content;
  run_tc : list string -> gmap string file -> proc;
  run_git : list string -> proc;
  http_get : string -> http_result;
  md5_hex8 : content -> string;
  expandvars : string -> string
}.

(* ------------------------------------------------------------------ *)
(** ** The monad *)

Definition M (A : Type) := world -> res A * world.

Definition ret {A} (a : A) : M A := fun w => (Ok a, w).
Definition raise {A} (e : exn) : M A := fun w => (Raise e, w).
Definition bind {A B} (m : M A) (k : A -> M B) : M B :=
  fun w => match m w with
           | (Ok a, w') => k a w'
           | (Raise e, w') => (Raise e, w')
           end.
Definition lift {A} (r : res A) : M A :=
  match r with Ok a => ret a | Raise e => raise e end.
Definition get : M world := fun w => (Ok w, w).
Definition put (w : world) : M unit := fun _ => (Ok tt, w).

Notation "'let!' x ':=' c1 'in' c2" := (bind c1 (fun x => c2))
  (at level 200, x name, c1 at level 100, c2 at level 200).
Notation "c1 ;; c2" := (bind c1 (fun _ => c2)) (at level 100, right associativity).

(** [try: m except subprocess.CalledProcessError as e: h e] *)
Definition catch_cpe {A} (m : M A) (h : Z -> string -> M A) : M A :=
  fun w => match m w with
           | (Raise (CalledProcessError c err), w') => h c err w'
           | r => r
           end.

(** [try: m except Exception as e: h e] ([SystemExit] is not an
    [Exception]). *)
Definition catch_exception {A} (m : M A) (h : exn -> M A) : M A :=
  fun w => match m w with
           | (Raise (SystemExit c), w') => (Raise (SystemExit c), w')
           | (Raise e, w') => h e w'
           | r => r
           end.

Definition print (s : string) : M unit :=
  fun w => (Ok tt, {| w_config := w_config w; w_config_file := w_config_file w;
                      w_odir := w_odir w; w_tc_exists := w_tc_exists w;
                      w_now := w_now w; w_clock := w_clock w; w_out := w_out w ++ [s] |}).

Definition set_odir (d : gmap string file) : M unit :=
  fun w => (Ok tt, {| w_config := w_config w; w_config_file := w_config_file w;
                      w_odir := d; w_tc_exists := w_tc_exists w;
                      w_now := w_now w; w_clock := w_clock w; w_out := w_out w |}).

Definition set_config (c : config) : M unit :=
  fun w => (Ok tt, {| w_config := c; w_config_file := w_config_file w;
                      w_odir := w_odir w; w_tc_exists := w_tc_exists w;
                      w_now := w_now w; w_clock := w_clock w; w_out := w_out w |}).

(** [GitIngestManager._save_config] *)
Definition _save_config : M unit :=
  fun w => (Ok tt, {| w_config := w_config w; w_config_file := w_config w;
                      w_odir := w_odir w; w_tc_exists := w_tc_exists w;
                      w_now := w_now w; w_clock := w_clock w; w_out := w_out w |}).

(* ------------------------------------------------------------------ *)
(** ** [GitIngestManager] *)

Module Manager.

Section Manager.
Variable E : env.

(** [str(self.output_dir / name)] *)
Definition path_join (d n : string) : string :=
  Py.path_norm (if Py.startswith "/" n || String.eqb d EmptyString then n else d ++ "/" ++ n).

Definition out_dir (w : world) : string := output_dir (cfg_settings (w_config w)).

(** [self.token_counter] *)
Definition tc_path (w : world) : string := expandvars E (token_counter (cfg_settings (w_config w))).

(** [open(self.output_dir / name, 'r', encoding='utf-8').read()]: the
    decoded text, line ends translated (universal newlines); a JSON
    file reads as the text [json.dump] wrote. *)
Definition read_text (name : string) : M string :=
  let! w := get in
  match w_odir w !! name with
  | None => raise FileNotFoundError
  | Some f =>
      match fdata f with
      | Text s => ret (Py.univ_nl s)
      | Bytes _ => raise UnicodeDecodeError
      | Json v => ret (json_dump 0 v)
      end
  end.

(** [open(self.output_dir / name, 'w')] and a write of [c]. *)
Definition write_file (name : string) (c : content) : M unit :=
  let! w := get in
  set_odir (<[name := mkFile c (w_clock w)]> (w_odir w)).

Definition unlink (name : string) : M unit :=
  let! w := get in
  match w_odir w !! name with
  | None => raise FileNotFoundError
  | Some _ => set_odir (delete name (w_odir w))
  end.

(** [(self.output_dir / src).rename(self.output_dir / dst)] *)
Definition rename (src dst : string) : M unit :=
  let! w := get in
  match w_odir w !! src with
  | None => raise FileNotFoundError
  | Some f => set_odir (<[dst := f]> (delete src (w_odir w)))
  end.

(** [_get_exclusions] *)
Definition _get_exclusions (repo_name : string) (profile : string) : M (list string) :=
  let! w := get in
  match assoc repo_name (repositories (w_config w)) with
  | None => raise ValueError
  | Some repo_config =>
      let exclusions0 := exclusions repo_config in
      match assoc profile (profiles (w_config w)) with
      | Some p => ret (exclusions0 ++ additional_exclusions p)%list
      | None => ret exclusions0
      end
  end.

(** [_build_gitingest_command] *)
Definition _build_gitingest_command (repo_name output_file profile : string) : M (list string) :=
  let! w := get in
  match assoc repo_name (repositories (w_config w)) with
  | None => raise KeyError
  | Some repo_config =>
      let! excl := _get_exclusions repo_name profile in
      let cmd := ["gitingest"; source repo_config; "-o"; output_file] in
      let cmd := match default_max_size (cfg_settings (w_config w)) with
                 | Some n => if n =? 0 then cmd else (cmd ++ ["-s"; Py.str_int n])%list
                 | None => cmd
                 end in
      ret (fold_left (fun c exclusion => (c ++ ["-e"; exclusion])%list) excl cmd)
  end.

(** [_count_tokens] on the file [self.output_dir / name]. *)
Definition char_fallback (name : string) : M (Z * Z) :=
  let! content := read_text name in
  let char_count := Z.of_nat (String.length content) in
  ret (char_count / 4, char_count).

Definition _count_tokens (name : string) : M (Z * Z) :=
  let! w := get in
  let tc := tc_path w in
  let file_path := path_join (out_dir w) name in
  if negb (w_tc_exists w) then
    print ("Warning: Token counter not found at " ++ tc) ;;
    char_fallback name
  else
    catch_cpe
      (let! r := lift (run_checked (run_tc E [tc; file_path] (w_odir w))) in
       let output_parts := Py.split_ws (Py.strip (fst r)) in
       let! token_count :=
         match output_parts with
         | [] => raise ValueError
         | p :: _ => match Py.int_of_token p with
                     | Some z => ret z
                     | None => raise ValueError
                     end
         end in
       let! content := read_text name in
       ret (token_count, Z.of_nat (String.length content)))
      (fun code _ =>
         print ("Error running token counter: " ++ cpe_str [tc; file_path] code) ;;
         char_fallback name).

(** [_get_file_hash] *)
Definition _get_file_hash (name : string) : M string :=
  let! w := get in
  match w_odir w !! name with
  | None => raise FileNotFoundError
  | Some f => ret (md5_hex8 E (fdata f))
  end.

(** [str(e)] in the handler of [_get_github_version]: the message an
    exception carries. Only the exceptions [fetch_release] raises reach
    that handler ([RequestException] and [AttributeError]); the class
    name stands for the others, which never do. *)
Definition exn_str (e : exn) : string :=
  match e with
  | CalledProcessError _ _ => "CalledProcessError"
  | FileNotFoundError => "FileNotFoundError"
  | KeyError => "KeyError"
  | ValueError => "ValueError"
  | IndexError => "IndexError"
  | AttributeError m => m
  | OverflowError => "OverflowError"
  | JSONDecodeError => "JSONDecodeError"
  | UnicodeDecodeError => "UnicodeDecodeError"
  | RequestException m => m
  | SystemExit _ => "SystemExit"
  end.

(** The inner [try] of [_get_github_version]: the request and the
    decoding of the release. *)
Definition fetch_release (api_url : string) : M (option string) :=
  match http_get E api_url with
  | HttpRaise m => raise (RequestException m)
  | HttpResp status body =>
      if status =? 200 then
        match body with
        | inr m => raise (RequestException m)
        | inl (JObj data) =>
            let tag_name := match assoc "tag_name" data with
                            | Some t => t
                            | None => JStr EmptyString
                            end in
            match tag_name with
            | JStr t => ret (Some (if Py.startswith "v" t then Py.drop 1 t else t))
            | v => raise (AttributeError (attr_error (py_type_name v) "startswith"))
            end
        | inl v => raise (AttributeError (attr_error (py_type_name v) "get"))
        end
      else ret None
  end.

(** [_get_github_version] *)
Definition _get_github_version (repo_path : string) : M (option string) :=
  catch_cpe
    (let! r := lift (run_checked (run_git E ["git"; "-C"; repo_path; "config"; "--get"; "remote.origin.url"])) in
     let remote_url := Py.strip (fst r) in
     if Py.contains "github.com" remote_url then
       let remote_url := if Py.endswith ".git" remote_url then Py.drop_end 4 remote_url else remote_url in
       match Py.last_two (Py.split_on "/" remote_url) with
       | owner :: repo :: _ =>
           let api_url := "https://api.github.com/repos/" ++ owner ++ "/" ++ repo ++ "/releases/latest" in
           catch_exception (fetch_release api_url)
             (fun e => print ("Warning: Could not fetch GitHub release: " ++ exn_str e) ;; ret None)
       | _ => raise IndexError
       end
     else ret None)
    (fun _ _ => ret None).

(** [not version] for an [Optional[str]]. *)
Definition falsy (v : option string) : bool :=
  match v with None => true | Some s => String.eqb s EmptyString end.

(** The log entry [_save_ingestion_log] appends. *)
Definition log_entry (repo_name profile file_name : string) (m : ingest_metadata) : json :=
  JObj [("timestamp", JStr (last_updated m));
        ("repository", JStr repo_name);
        ("profile", JStr profile);
        ("file", JStr file_name);
        ("tokens", JInt (token_count m));
        ("characters", JInt (character_count m));
        ("files", JInt (file_count m));
        ("hash", JStr (hash m))].

Definition log_name : string := "ingestion_log.json".

(** [json.load] of the log file, then [log.append] on the result. *)
Definition load_log (c : content) : M (list json) :=
  match c with
  | Json (JArr l) => ret l
  | Json v => raise (AttributeError (attr_error (py_type_name v) "append"))
  | Text _ => raise JSONDecodeError
  | Bytes _ => raise UnicodeDecodeError
  end.

(** [_save_ingestion_log] *)
Definition _save_ingestion_log (repo_name profile file_name : string) (m : ingest_metadata) : M unit :=
  let! w := get in
  let! log := match w_odir w !! log_name with
              | Some f => load_log (fdata f)
              | None => ret []
              end in
  write_file log_name (Json (JArr (log ++ [log_entry repo_name profile file_name m])%list)).

(** [repo_config['metadata'] = m] on [self.config]. *)
Definition set_metadata (repo_name : string) (m : ingest_metadata) : M unit :=
  let! w := get in
  let c := w_config w in
  match assoc repo_name (repositories c) with
  | None => raise KeyError
  | Some rc =>
      set_config (mkConfig (cfg_settings c)
                    (assoc_set repo_name (mkRepo (source rc) (description rc) (exclusions rc) (Some m))
                       (repositories c))
                    (profiles c))
  end.

(** [subprocess.run(cmd, capture_output=True, text=True, check=True)] for
    the ingestion command: what it leaves at its [-o] path is in the output
    directory when it returns. *)
Definition run_ingestion (cmd : list string) (temp_filename : string) : M (string * string) :=
  let (p, written) := run_gitingest E cmd in
  match p with
  | PNotFound => raise FileNotFoundError
  | PExit _ _ _ =>
      match written with
      | Some c => write_file temp_filename c
      | None => ret tt
      end ;;
      lift (run_checked p)
  end.

Definition exists_file (name : string) : M bool :=
  let! w := get in ret (bool_decide (is_Some (w_odir w !! name))).

(** The body of the [try] in [ingest]. *)
Definition ingest_body (repo_name profile : string) (version : option string)
    (cmd : list string) (timestamp temp_filename : string) : M unit :=
  let! r := run_ingestion cmd temp_filename in
  print (fst r) ;;
  print "
Counting tokens..." ;;
  let! counts := _count_tokens temp_filename in
  let token_count := fst counts in
  let char_count := snd counts in
  let! content := read_text temp_filename in
  let file_count := Py.count "
```" content in
  let! version :=
    if falsy version then
      let! w := get in
      match assoc repo_name (repositories (w_config w)) with
      | None => raise KeyError
      | Some repo_config =>
          let! v := _get_github_version (source repo_config) in
          ret (match v with
               | Some s => if String.eqb s EmptyString then "latest" else s
               | None => "latest"
               end)
      end
    else ret (match version with Some s => s | None => EmptyString end) in
  let! human_token_count := lift (_format_token_count token_count) in
  let final_filename := repo_name ++ "_" ++ version ++ "_" ++ human_token_count ++ ".md" in
  rename temp_filename final_filename ;;
  let! h := _get_file_hash final_filename in
  let m := mkMeta timestamp token_count char_count file_count final_filename profile h in
  set_metadata repo_name m ;;
  _save_config ;;
  _save_ingestion_log repo_name profile final_filename m ;;
  let! w := get in
  print ("
✅ Successfully ingested " ++ repo_name) ;;
  print ("   Output: " ++ path_join (out_dir w) final_filename) ;;
  print ("   Tokens: " ++ Py.str_commas token_count) ;;
  print ("   Characters: " ++ Py.str_commas char_count) ;;
  print ("   Files: " ++ Py.str_int file_count).

Definition temp_name (repo_name timestamp : string) : string :=
  repo_name ++ "_temp_" ++ timestamp ++ ".md".

(** [ingest] *)
Definition ingest (repo_name profile : string) (version : option string) : M unit :=
  print ("
=== Ingesting " ++ repo_name ++ " with profile '" ++ profile ++ "' ===") ;;
  let! w := get in
  let timestamp := w_now w in
  let temp_filename := temp_name repo_name timestamp in
  let! cmd := _build_gitingest_command repo_name (path_join (out_dir w) temp_filename) profile in
  print ("Running: " ++ String.concat " " cmd) ;;
  catch_cpe (ingest_body repo_name profile version cmd timestamp temp_filename)
    (fun code err =>
       print ("❌ Error running gitingest: " ++ cpe_str cmd code) ;;
       print ("   stderr: " ++ err) ;;
       let! ex := exists_file temp_filename in
       (if ex then unlink temp_filename else ret tt) ;;
       raise (SystemExit 1)).

(** [file.stem.split('_')[0]] for a name matched by [*.md]: [Path.stem]
    drops the [.md] suffix unless the name is [.md] itself. *)
Definition stem_md (name : string) : string :=
  if (3 <? String.length name)%nat then Py.drop_end 3 name else name.

Definition repo_key (name : string) : option string :=
  match Py.split_on "_" (stem_md name) with
  | [] => None
  | r :: _ => Some r
  end.

(** [repo_files[repo].append(file)] on a dict of lists in insertion
    order. *)
Fixpoint add_to_group (repo : string) (x : string * file)
    (g : list (string * list (string * file))) : list (string * list (string * file)) :=
  match g with
  | [] => [(repo, [x])]
  | (r, xs) :: g' =>
      if String.eqb repo r then (r, (xs ++ [x])%list) :: g' else (r, xs) :: add_to_group repo x g'
  end.

Definition group_files (files : list (string * file)) : list (string * list (string * file)) :=
  fold_left (fun g x => match repo_key (fst x) with
                        | Some r => add_to_group r x g
                        | None => g
                        end) files [].

(** [files.sort(key=lambda f: f.stat().st_mtime, reverse=True)]: a stable
    sort, newest first, equal times keeping their order. *)
Fixpoint insert_desc (x : string * file) (l : list (string * file)) : list (string * file) :=
  match l with
  | [] => [x]
  | y :: l' => if fmtime (snd x) <=? fmtime (snd y) then y :: insert_desc x l' else x :: l
  end.

Definition sort_desc (l : list (string * file)) : list (string * file) :=
  fold_left (fun acc x => insert_desc x acc) l [].

(** [self.output_dir.glob("*.md")] *)
Definition glob_md (w : world) : list (string * file) :=
  filter (fun x => Py.endswith ".md" (fst x)) (map_to_list (w_odir w)).

(** The inner loop of [clean_old]: remove the files, counting them and
    their bytes. *)
Fixpoint remove_files (files : list (string * file)) (acc : Z * Z) : M (Z * Z) :=
  match files with
  | [] => ret acc
  | x :: rest =>
      let size := content_size (fdata (snd x)) in
      print ("  Removing: " ++ fst x ++ " (" ++ Py.str_commas size ++ " bytes)") ;;
      unlink (fst x) ;;
      remove_files rest (fst acc + 1, snd acc + size)
  end.

Fixpoint clean_groups (keep_latest : Z) (g : list (string * list (string * file))) (acc : Z * Z) : M (Z * Z) :=
  match g with
  | [] => ret acc
  | (_, files) :: g' =>
      let! acc' := remove_files (Py.slice_from keep_latest (sort_desc files)) acc in
      clean_groups keep_latest g' acc'
  end.

(** [clean_old] *)
Definition clean_old (keep_latest : Z) : M unit :=
  print ("
=== Cleaning old files (keeping latest " ++ Py.str_int keep_latest ++ " per repo) ===") ;;
  let! w := get in
  let! totals := clean_groups keep_latest (group_files (glob_md w)) (0, 0) in
  print ("
✅ Removed " ++ Py.str_int (fst totals) ++ " files (" ++ Py.str_commas (snd totals) ++ " bytes)").

End Manager.

(** The process exit code of a run of [main] that ends in [r]: an
    uncaught exception other than [SystemExit] exits with 1. *)
Definition exit_code {A} (r : res A) : Z :=
  match r with
  | Ok _ => 0
  | Raise (SystemExit c) => c
  | Raise _ => 1
  end.

End Manager.

(* ------------------------------------------------------------------ *)
(** ** The listing commands and [main] *)

Module Cli.
Import Manager.


(** The lines [list_repos] prints for one repository.  The entries of the
    model always carry a [description], so [.get('description', 'N/A')]
    is that description; [metadata] is truthy and [last_updated] is
    truthy when the block is present with a non-empty stamp. *)
Definition repo_lines (repo_name : string) (repo_config : repo_config) : list string :=
  app ["
" ++ repo_name ++ ":";
    "  Description: " ++ description repo_config;
    "  Source: " ++ source repo_config;
    "  Exclusions: " ++ Py.str_int (Z.of_nat (length (exclusions repo_config))) ++ " patterns"]
   (match metadata repo_config with
      | Some m =>
          if String.eqb (last_updated m) EmptyString then []
          else ["  Last ingested: " ++ last_updated m;
                "  Last profile: " ++ meta_profile m;
                "  Tokens: " ++ Py.str_commas (token_count m);
                "  Characters: " ++ Py.str_commas (character_count m)]
      | None => []
      end).

Fixpoint print_all (l : list string) : M unit :=
  match l with
  | [] => ret tt
  | s :: l' => print s ;; print_all l'
  end.

(** [list_repos] *)
Definition list_repos : M unit :=
  print "
=== Configured Repositories ===" ;;
  let! w := get in
  print_all (concat (map (fun '(n, rc) => repo_lines n rc) (repositories (w_config w)))).

Definition profile_lines (profile_name : string) (profile_config : profile_config) : list string :=
  ["
" ++ profile_name ++ ":";
   "  Description: " ++ profile_description profile_config;
   "  Additional exclusions: " ++ Py.str_int (Z.of_nat (length (additional_exclusions profile_config)))].

(** [list_profiles] *)
Definition list_profiles : M unit :=
  print "
=== Available Profiles ===" ;;
  let! w := get in
  print_all (concat (map (fun '(n, p) => profile_lines n p) (profiles (w_config w)))).



(** [f"{x:.2f}"] for the double [x = m * 2^e >= 0]: the exact binary
    value rounded to two decimals, ties to even. *)
Definition format_2f (m e : Z) : string :=
  let n := if 0 <=? e then 100 * m * 2 ^ e else Fmt.rhe (100 * m) (2 ^ (- e)) in
  Py.str_nat (n / 100) ++ "." ++ String (Py.digit ((n / 10) mod 10)) (String (Py.digit (n mod 10)) EmptyString).

Section Listing.
(** [datetime.fromtimestamp(t).strftime('%Y-%m-%d %H:%M:%S')] in the
    local time zone. *)
Variable local_time : Z -> string.

(** One iteration of the loop of [list_ingested]: [stat.st_size / (1024 * 1024)]
    is a true division of integers, computed before anything is printed. *)
Definition list_file (x : string * file) : M unit :=
  let size := content_size (fdata (snd x)) in
  let! me := lift (Fmt.true_div size (1024 * 1024)) in
  print ("
" ++ fst x ++ ":") ;;
  print ("  Size: " ++ format_2f (fst me) (snd me) ++ " MB (" ++ Py.str_commas size ++ " bytes)") ;;
  print ("  Modified: " ++ local_time (fmtime (snd x))).



End Listing.

End Cli.

(* ------------------------------------------------------------------ *)
(** ** The end-to-end scenario of the spec *)

Module Scenario.

Fixpoint chars (n : nat) (c : ascii) : string :=
  match n with O => EmptyString | S n' => String c (chars n' c) end.

Definition cfg : config :=
  mkConfig (mkSettings "out" "/usr/local/bin/tc" None)
    [("repo1", mkRepo "/src/repo1" "first repository" ["*.log"; "node_modules/"] None)]
    [("standard", mkProfile "standard exclusions" ["tests/"])].

(** The 4000-character file the stub ingestion command writes. *)
Definition text : string := chars 4000 "a".

(** The command [ingest("repo1")] is expected to run. *)
Definition expected_cmd : list string :=
  ["gitingest"; "/src/repo1"; "-o"; "out/repo1_temp_20260101_120000.md";
   "-e"; "*.log"; "-e"; "node_modules/"; "-e"; "tests/"].

(** A stub [gitingest] that writes [text] when called with
    [expected_cmd] and fails with a usage error otherwise, a stub counter
    reporting 1000 tokens, a [git] without an origin remote. *)
Definition stub_env : env :=
  mkEnv (fun args => if bool_decide (args = expected_cmd)
                     then (PExit 0 "done" EmptyString, Some (Text text))
                     else (PExit 2 EmptyString "usage error", None))
        (fun _ _ => PExit 0 "1000
" EmptyString)
        (fun _ => PExit 1 EmptyString EmptyString)
        (fun _ => HttpRaise "Connection refused")
        (fun _ => "0cc175b9")
        (fun s => s).

(** The output directory before the run: no log, or a log holding the
    list [l]. *)
Definition log_dir (prior : option (list json)) : gmap string file :=
  match prior with
  | None => ∅
  | Some l => {[ Manager.log_name := mkFile (Json (JArr l)) 0 ]}
  end.

Definition prior_entries (prior : option (list json)) : list json :=
  match prior with None => [] | Some l => l end.

Definition start (odir : gmap string file) (now : string) : world :=
  mkWorld cfg cfg odir true now 100 [].

End Scenario.

(* ------------------------------------------------------------------ *)
(** ** Auxiliary definitions: fixtures and the sets the properties talk about *)

Module Defs.
Import Manager.

(** The [-s] arguments of the ingestion command. *)
Definition size_args (c : config) : list string :=
  match default_max_size (cfg_settings c) with
  | Some n => if n =? 0 then [] else ["-s"; Py.str_int n]
  | None => []
  end.

(** The additional exclusions a profile name contributes. *)
Definition profile_extra (c : config) (profile : string) : list string :=
  match assoc profile (profiles c) with
  | Some p => additional_exclusions p
  | None => []
  end.

(** A counter printing a word where the count should be. *)
Definition word_counter_env : env :=
  mkEnv (fun _ => (PExit 0 EmptyString EmptyString, None))
        (fun _ _ => PExit 0 "tokens: 1000" EmptyString)
        (fun _ => PNotFound) (fun _ => HttpRaise "Connection refused") (fun _ => "00000000") (fun s => s).

Definition meta0 : ingest_metadata := mkMeta "20260101_120000" 1000 4000 0 "repo1_latest_1k.md" "standard" "0cc175b9".

(** An origin remote whose URL is the bare host name. *)
Definition bare_host_env : env :=
  mkEnv (fun _ => (PExit 0 "done" EmptyString, Some (Text "# repo1")))
        (fun args _ => PExit 0 ("1000 " ++ String.concat " " (skipn 1 args)) EmptyString)
        (fun _ => PExit 0 "github.com
" EmptyString)
        (fun _ => HttpRaise "Connection refused") (fun _ => "0cc175b9") (fun s => s).

(** The header [ingest] prints first. *)
Definition ingest_header (repo_name profile : string) : string :=
  "
=== Ingesting " ++ repo_name ++ " with profile '" ++ profile ++ "' ===".



(** The files [clean_old(k)] removes: in each group, those from
    [files[keep_latest:]] on the newest-first order. *)
Definition cleaned (k : Z) (w : world) : list (string * file) :=
  concat (map (fun g => Py.slice_from k (sort_desc (snd g))) (group_files (glob_md w))).

(** For [k >= 0]: the files beyond the first [k] of each group, newest
    first. *)
Definition beyond_first (k : nat) (w : world) : list (string * file) :=
  concat (map (fun g => skipn k (sort_desc (snd g))) (group_files (glob_md w))).

(** The last [j] files of each group in newest-first order, that is its
    [j] oldest (the whole group when it has at most [j] files). *)
Definition oldest (j : nat) (w : world) : list (string * file) :=
  concat (map (fun g => skipn (length (sort_desc (snd g)) - j) (sort_desc (snd g))) (group_files (glob_md w))).

Definition doomed (k : Z) (G : list (string * list (string * file))) : list (string * file) :=
  concat (map (fun g => Py.slice_from k (sort_desc (snd g))) G).

Definition group_inv (G : list (string * list (string * file))) : Prop :=
  NoDup (map fst G)
  /\ forall r xs x, In (r, xs) G -> In x xs -> repo_key (fst x) = Some r.

Definition newer (a b : string * file) : Prop := fmtime (snd b) <= fmtime (snd a).

(** Two artifacts of [repo1], the newer one written at time 20. *)
Definition two_artifacts : world :=
  mkWorld Scenario.cfg Scenario.cfg
    {[ "repo1_latest_1k.md" := mkFile (Text "new") 20;
       "repo1_v1_1k.md" := mkFile (Text "old") 10;
       log_name := mkFile (Json (JArr [])) 20 ]} true "t" 30 [].

(** The smallest count whose quotient by [1_000_000] rounds to [2^1024]. *)
Definition overflow_threshold : Z := 10 ^ 6 * (2 ^ 1024 - 2 ^ 970).

End Defs.

(* ------------------------------------------------------------------ *)
(** ** Views the further properties talk about *)

Module Views.
Import Manager Cli.


(** The world [w] after printing the lines [l], nothing else changed. *)
Definition printed (w : world) (l : list string) : world :=
  mkWorld (w_config w) (w_config_file w) (w_odir w) (w_tc_exists w) (w_now w) (w_clock w)
    (w_out w ++ l).

(** The repositories whose metadata block carries a non-empty stamp. *)
Definition ingested_repos (c : config) : list (string * repo_config) :=
  List.filter (fun x => match metadata (snd x) with
                        | Some m => negb (String.eqb (last_updated m) EmptyString)
                        | None => false
                        end) (repositories c).

(** The decimal figure [n / 100] with two decimals. *)
Definition two_decimals (n : Z) : string :=
  Py.str_nat (n / 100) ++ "." ++ String (Py.digit ((n / 10) mod 10)) (String (Py.digit (n mod 10)) EmptyString).

(** The lines of one listed file, the size in MiB rounded to two
    decimals (ties to even). *)
Definition file_lines (local_time : Z -> string) (x : string * file) : list string :=
  let size := content_size (fdata (snd x)) in
  ["
" ++ fst x ++ ":";
   "  Size: " ++ two_decimals (Fmt.rhe (100 * size) (2 ^ 20)) ++ " MB (" ++ Py.str_commas size ++ " bytes)";
   "  Modified: " ++ local_time (fmtime (snd x))].


(** A string of whitespace characters only ([str.isspace] on each). *)
Definition spaces (t : string) : Prop := Forall (fun c => Py.is_space c = true) (list_ascii_of_string t).

(** A string with no whitespace character. *)
Definition solid (s : string) : Prop := Forall (fun c => Py.is_space c = false) (list_ascii_of_string s).

(** A string with no ['/']. *)
Definition no_slash (s : string) : Prop := Forall (fun c => Ascii.eqb c "/"%char = false) (list_ascii_of_string s).

(** The step from [w] to [w'] changes at most the printed lines. *)
Definition frame (w w' : world) : Prop :=
  w_config w' = w_config w /\ w_config_file w' = w_config_file w /\ w_odir w' = w_odir w
  /\ w_tc_exists w' = w_tc_exists w /\ w_now w' = w_now w /\ w_clock w' = w_clock w.

Definition frames {A} (m : M A) : Prop := forall w, frame w (snd (m w)).

(** An environment whose [git] reports a GitHub origin and whose release
    endpoint answers with the tag [v1.2.3]; the rest as in
    [Scenario.stub_env]. *)
Definition release_env : env :=
  mkEnv (run_gitingest Scenario.stub_env) (run_tc Scenario.stub_env)
        (fun _ => PExit 0 "https://github.com/acme/tool.git
" EmptyString)
        (fun _ => HttpResp 200 (inl (JObj [("tag_name", JStr "v1.2.3")])))
        (md5_hex8 Scenario.stub_env) (expandvars Scenario.stub_env).

(** An output directory with two artifacts and the log. *)
Definition listed_dir : world :=
  mkWorld Scenario.cfg Scenario.cfg
    {[ "repo1_v1_1k.md" := mkFile (Text "abc") 10;
       "a_v2_2k.md" := mkFile (Text "hello") 20;
       log_name := mkFile (Json (JArr [])) 30 ]} true "t" 40 [].

End Views.

(* ================================================================== *)
(** * Sanity checks: the model evaluated on small inputs *)

Example strip_ex : Py.strip "  1000 file.md
" = "1000 file.md".
Proof. reflexivity. Qed.
Example split_ex : Py.split_ws " 1000  file.md " = ["1000"; "file.md"].
Proof. reflexivity. Qed.
Example int_ex : Py.int_of_token "1_000" = Some 1000 /\ Py.int_of_token "1__0" = None
  /\ Py.int_of_token "-7" = Some (-7) /\ Py.int_of_token "abc" = None.
Proof. repeat split; reflexivity. Qed.
Example str_ex : Py.str_int 0 = "0" /\ Py.str_int 999 = "999" /\ Py.str_int (-12) = "-12"
  /\ Py.str_commas 1234567 = "1,234,567".
Proof. repeat split; reflexivity. Qed.
Example count_ex : Py.count "aa" "aaaaa" = 2.
Proof. reflexivity. Qed.
Example fmt_ex : _format_token_count 999 = Ok "999" /\ _format_token_count 1000 = Ok "1k"
  /\ _format_token_count 1000000 = Ok "1.0M" /\ _format_token_count 1050000 = Ok "1.1M"
  /\ _format_token_count 1250000 = Ok "1.2M" /\ _format_token_count 1999999 = Ok "2.0M"
  /\ _format_token_count 482345 = Ok "482k" /\ _format_token_count 1234567 = Ok "1.2M".
Proof. repeat split; vm_compute; reflexivity. Qed.
Example fmt_ex2 : _format_token_count 1150000 = Ok "1.1M"
  /\ _format_token_count (10^40 + 5 * 10^5) = Ok "9999999999999999455752309870428160.0M"
  /\ _format_token_count (2^1024 * 10^6 - 1) = Raise OverflowError.
Proof. repeat split; vm_compute; reflexivity. Qed.
Example fmt_ex3 : _format_token_count (179769313486231570814527423731704356798070567525844996598917476803157260780028538760589558632766878171540458953514382464234321326889464182768467546703537516986049910576551282076245490090389328944075868508455133942304583236903222948165808559332123348274797826204144723168738177180919299881250404026184124858491456789) = Ok "179769313486231570814527423731704356798070567525844996598917476803157260780028538760589558632766878171540458953514382464234321326889464182768467546703537516986049910576551282076245490090389328944075868508455133942304583236903222948165808559332123348274797826204144723168738177180919299881250404026184124858368.0M".
Proof. vm_compute; reflexivity. Qed.
Example fmt_ex4 : _format_token_count (2^1024 * 10^6 - 2^970 * 10^6) = Raise OverflowError
  /\ exists s, _format_token_count (2^1024 * 10^6 - 2^970 * 10^6 - 1) = Ok s.
Proof. split; [vm_compute; reflexivity | eexists; vm_compute; reflexivity]. Qed.
Example scen_ex :
  let w := snd (Manager.ingest Scenario.stub_env "repo1" "standard" None (Scenario.start ∅ "20260101_120000")) in
  map fst (map_to_list (w_odir w)) = ["ingestion_log.json"; "repo1_latest_1k.md"].
Proof. vm_compute. reflexivity. Qed.

(* ================================================================== *)
(** * Properties *)

Module Props.
Import Manager Defs.

(** Python's loop [for exclusion in exclusions: cmd.extend(['-e', exclusion])]. *)
Lemma fold_extend_flat_map (l acc : list string) :
  fold_left (fun c exclusion => (c ++ ["-e"; exclusion])%list) l acc
  = (acc ++ flat_map (fun e => ["-e"; e]) l)%list.
Proof.
  revert acc; induction l as [|x l IH]; intros acc; simpl.
  - by rewrite app_nil_r.
  - rewrite IH, <- app_assoc. reflexivity.
Qed.

(** C4: exclusions are the repository's own, in order, followed by those
    of a known profile (none for an unknown profile, without error); the
    lookup changes nothing in the state (the stored list is copied); the
    command is the source, [-o file], the optional [-s size], then one
    [-e pattern] pair per resolved pattern in the same order. *)
Theorem exclusions_and_command (E : env) (w : world) (repo_name profile output_file : string)
    (rc : repo_config) :
  assoc repo_name (repositories (w_config w)) = Some rc ->
  let resolved := (exclusions rc ++ profile_extra (w_config w) profile)%list in
  _get_exclusions repo_name profile w = (Ok resolved, w)
  /\ firstn (length (exclusions rc)) resolved = exclusions rc
  /\ (length (exclusions rc) <= length resolved)%nat
  /\ (assoc profile (profiles (w_config w)) = None ->
      _get_exclusions repo_name profile w = (Ok (exclusions rc), w))
  /\ _build_gitingest_command repo_name output_file profile w
     = (Ok (["gitingest"; source rc; "-o"; output_file] ++ size_args (w_config w)
            ++ flat_map (fun e => ["-e"; e]) resolved)%list, w).
Proof.
  intros Hrc resolved.
  assert (Hex : _get_exclusions repo_name profile w = (Ok resolved, w)).
  { unfold _get_exclusions, bind, get; simpl. rewrite Hrc.
    unfold resolved, profile_extra.
    destruct (assoc profile (profiles (w_config w))); simpl.
    - reflexivity.
    - by rewrite app_nil_r. }
  repeat split.
  - exact Hex.
  - unfold resolved. by rewrite firstn_app, Nat.sub_diag, firstn_all, firstn_O, app_nil_r.
  - unfold resolved. rewrite length_app. lia.
  - intros Hp. rewrite Hex. unfold resolved, profile_extra. by rewrite Hp, app_nil_r.
  - unfold _build_gitingest_command, bind at 1, get at 1; simpl. rewrite Hrc.
    unfold bind. rewrite Hex. unfold ret. f_equal. f_equal.
    rewrite fold_extend_flat_map. unfold size_args.
    destruct (default_max_size (cfg_settings (w_config w))) as [n|]; simpl.
    + destruct (n =? 0); simpl; [reflexivity|].
      reflexivity.
    + reflexivity.
Qed.

Lemma exclusions_and_command_witness :
  let w := Scenario.start ∅ "20260101_120000" in
  assoc "repo1" (repositories (w_config w)) = Some (mkRepo "/src/repo1" "first repository" ["*.log"; "node_modules/"] None)
  /\ _build_gitingest_command "repo1" "out/x.md" "standard" w
     = (Ok ["gitingest"; "/src/repo1"; "-o"; "out/x.md"; "-e"; "*.log"; "-e"; "node_modules/"; "-e"; "tests/"], w).
Proof.
  intros w. split; [reflexivity|].
  destruct (exclusions_and_command Scenario.stub_env w "repo1" "standard" "out/x.md"
              (mkRepo "/src/repo1" "first repository" ["*.log"; "node_modules/"] None) eq_refl)
    as (_ & _ & _ & _ & H).
  rewrite H. reflexivity.
Defined.



(** C6: when the counter succeeds but its output has no first token, or
    a first token that [int()] rejects, the count raises [ValueError]:
    no fallback, nothing printed, the state unchanged. *)
Theorem count_tokens_unparsable (E : env) (w : world) (name out err : string) :
  w_tc_exists w = true ->
  run_tc E [tc_path E w; path_join (out_dir w) name] (w_odir w) = PExit 0 out err ->
  (Py.split_ws (Py.strip out) = []
   \/ exists p rest, Py.split_ws (Py.strip out) = p :: rest /\ Py.int_of_token p = None) ->
  _count_tokens E name w = (Raise ValueError, w).
Proof.
  intros Htc Hrun Hout.
  unfold _count_tokens, bind at 1, get at 1. rewrite Htc. simpl.
  unfold catch_cpe, lift, bind. rewrite Hrun. simpl.
  destruct Hout as [Hnil | (p & rest & Hsplit & Hint)].
  - rewrite Hnil. reflexivity.
  - rewrite Hsplit. simpl. rewrite Hint. reflexivity.
Qed.

Lemma count_tokens_unparsable_witness :
  let w := mkWorld Scenario.cfg Scenario.cfg {[ "a.md" := mkFile (Text "abc") 0 ]} true "t" 0 [] in
  _count_tokens word_counter_env "a.md" w = (Raise ValueError, w).
Proof.
  intros w. apply (count_tokens_unparsable word_counter_env w "a.md" "tokens: 1000" EmptyString).
  - reflexivity.
  - reflexivity.
  - right. exists "tokens:", ["1000"]. split; reflexivity.
Defined.

(** C8 (amended): [_save_ingestion_log] starts from the empty sequence
    only when the log file is absent; a log holding a JSON list gets the
    one new entry at its end, the whole file rewritten; a log file that
    is not a JSON document, or not UTF-8, makes [json.load] raise, and a
    JSON document that is not a list makes [append] raise, each leaving
    the state unchanged. *)
Theorem save_ingestion_log_cases (w : world) (repo_name profile file_name : string)
    (m : ingest_metadata) :
  let e := log_entry repo_name profile file_name m in
  let rewritten (l : list json) :=
    snd (set_odir (<[log_name := mkFile (Json (JArr (l ++ [e])%list)) (w_clock w)]> (w_odir w)) w) in
  (w_odir w !! log_name = None ->
   _save_ingestion_log repo_name profile file_name m w = (Ok tt, rewritten []))
  /\ (forall (l : list json) (t : Z), w_odir w !! log_name = Some (mkFile (Json (JArr l)) t) ->
      _save_ingestion_log repo_name profile file_name m w = (Ok tt, rewritten l))
  /\ (forall (s : string) (t : Z), w_odir w !! log_name = Some (mkFile (Text s) t) ->
      _save_ingestion_log repo_name profile file_name m w = (Raise JSONDecodeError, w))
  /\ (forall (b : list Byte.byte) (t : Z), w_odir w !! log_name = Some (mkFile (Bytes b) t) ->
      _save_ingestion_log repo_name profile file_name m w = (Raise UnicodeDecodeError, w))
  /\ (forall (v : json) (t : Z), (forall l, v <> JArr l) ->
      w_odir w !! log_name = Some (mkFile (Json v) t) ->
      _save_ingestion_log repo_name profile file_name m w
      = (Raise (AttributeError (attr_error (py_type_name v) "append")), w)).
Proof.
  intros e rewritten.
  unfold _save_ingestion_log, bind, get.
  repeat split.
  - intros H. rewrite H. reflexivity.
  - intros l t H. rewrite H. reflexivity.
  - intros s t H. rewrite H. reflexivity.
  - intros b t H. rewrite H. reflexivity.
  - intros v t Hv H. rewrite H. simpl.
    destruct v; try reflexivity. exfalso. by eapply Hv.
Qed.

Lemma save_ingestion_log_cases_witness :
  let w := mkWorld Scenario.cfg Scenario.cfg {[ log_name := mkFile (Json (JArr [JNull])) 5 ]} true "t" 7 [] in
  _save_ingestion_log "repo1" "standard" "repo1_latest_1k.md" meta0 w
  = (Ok tt, snd (set_odir (<[log_name := mkFile (Json (JArr [JNull; log_entry "repo1" "standard" "repo1_latest_1k.md" meta0])) 7]>
                            {[ log_name := mkFile (Json (JArr [JNull])) 5 ]}) w)).
Proof.
  intros w.
  destruct (save_ingestion_log_cases w "repo1" "standard" "repo1_latest_1k.md" meta0)
    as (_ & H & _).
  exact (H [JNull] 5 eq_refl).
Defined.

(** C8 fails as stated: a log file that exists but does not parse is not
    read as the empty sequence; [json.load] raises and no entry is
    written. *)
Lemma save_ingestion_log_unreadable :
  let w := mkWorld Scenario.cfg Scenario.cfg {[ log_name := mkFile (Text "[{truncated") 5 ]} true "t" 7 [] in
  _save_ingestion_log "repo1" "standard" "repo1_latest_1k.md" meta0 w = (Raise JSONDecodeError, w)
  /\ w_odir (snd (_save_ingestion_log "repo1" "standard" "repo1_latest_1k.md" meta0 w)) !! log_name
     = Some (mkFile (Text "[{truncated") 5).
Proof. split; reflexivity. Qed.

(** C7: version resolution raises [IndexError] when the remote URL
    contains [github.com] but has fewer than two [/]-separated parts, and
    [ingest] aborts with it, leaving the temporary file on disk. *)
Theorem github_version_index_error :
  let w := Scenario.start ∅ "20260101_120000" in
  _get_github_version bare_host_env "/src/repo1" w = (Raise IndexError, w)
  /\ fst (ingest bare_host_env "repo1" "standard" None w) = Raise IndexError
  /\ exit_code (fst (ingest bare_host_env "repo1" "standard" None w)) = 1
  /\ w_odir (snd (ingest bare_host_env "repo1" "standard" None w)) !! "repo1_temp_20260101_120000.md"
     = Some (mkFile (Text "# repo1") 100).
Proof. repeat split; vm_compute; reflexivity. Qed.

Lemma list_ascii_of_string_app (s1 s2 : string) :
  list_ascii_of_string (s1 ++ s2) = (list_ascii_of_string s1 ++ list_ascii_of_string s2)%list.
Proof. induction s1 as [|c s1 IH]; [reflexivity | exact (f_equal (cons c) IH)]. Qed.

Lemma string_app_assoc (a b c : string) : a ++ (b ++ c) = (a ++ b) ++ c.
Proof. induction a as [|x a IH]; [reflexivity | exact (f_equal (String x) IH)]. Qed.

Lemma endswith_md (x : string) : Py.endswith ".md" (x ++ ".md") = true.
Proof.
  unfold Py.endswith, Py.rev_string. rewrite list_ascii_of_string_app. simpl.
  rewrite rev_app_distr. reflexivity.
Qed.

Lemma temp_name_md (repo_name timestamp : string) :
  Py.endswith ".md" (temp_name repo_name timestamp) = true.
Proof.
  unfold temp_name. rewrite !string_app_assoc. apply endswith_md.
Qed.

Lemma log_name_not_md : Py.endswith ".md" log_name = false.
Proof. reflexivity. Qed.

Lemma temp_name_not_log (repo_name timestamp : string) : temp_name repo_name timestamp <> log_name.
Proof.
  intros H. pose proof (temp_name_md repo_name timestamp) as Hm.
  rewrite H, log_name_not_md in Hm. discriminate.
Qed.

(** [_build_gitingest_command] reads only [self.config] and changes
    nothing. *)
Lemma build_command_reads_config (r o p : string) (w w' : world) :
  w_config w = w_config w' ->
  _build_gitingest_command r o p w' = (fst (_build_gitingest_command r o p w), w').
Proof.
  intros Hc. destruct w, w'; simpl in Hc; subst.
  unfold _build_gitingest_command, _get_exclusions, bind, get, ret, raise; simpl.
  destruct (assoc r _) eqn:E1; [|reflexivity].
  simpl. rewrite E1. simpl. destruct (assoc p _); reflexivity.
Qed.

Lemma bind_ok {A B} (m : M A) (k : A -> M B) (w w' : world) (a : A) :
  m w = (Ok a, w') -> bind m k w = k a w'.
Proof. intros H. unfold bind. by rewrite H. Qed.











Lemma print_odir (s : string) (w : world) :
  print s w = (Ok tt, snd (print s w)) /\ w_odir (snd (print s w)) = w_odir w
  /\ w_config (snd (print s w)) = w_config w /\ w_config_file (snd (print s w)) = w_config_file w.
Proof. repeat split. Qed.

Lemma remove_files_spec (fs : list (string * file)) (acc : Z * Z) (w : world) :
  NoDup (map fst fs) ->
  (forall x, In x fs -> is_Some (w_odir w !! fst x)) ->
  exists acc' W, remove_files fs acc w = (Ok acc', W)
    /\ w_config W = w_config w /\ w_config_file W = w_config_file w
    /\ forall n, w_odir W !! n = if in_dec string_dec n (map fst fs) then None else w_odir w !! n.
Proof.
  revert acc w. induction fs as [|x fs IH]; intros acc w Hnd Hin.
  - exists acc, w. repeat split.
  - simpl in Hnd. inversion Hnd as [|? ? Hx Hnd']; subst.
    destruct (Hin x (or_introl eq_refl)) as [f Hf].
    set (w1 := snd (print ("  Removing: " ++ fst x ++ " (" ++ Py.str_commas (content_size (fdata (snd x))) ++ " bytes)") w)).
    set (w2 := snd (set_odir (delete (fst x) (w_odir w1)) w1)).
    destruct (IH (acc.1 + 1, acc.2 + content_size (fdata (snd x))) w2 Hnd') as (acc' & W & HW & Hc & Hcf & Ho).
    { intros y Hy. unfold w2; simpl. rewrite lookup_delete_ne.
      - exact (Hin y (or_intror Hy)).
      - intros He. apply Hx. rewrite He. apply list_elem_of_In. now apply in_map. }
    exists acc', W. split; [|split; [|split]].
    + assert (Hu : unlink (fst x) w1 = (Ok tt, w2)) by (unfold unlink, bind, get, w1; simpl; rewrite Hf; reflexivity).
      simpl remove_files. erewrite bind_ok; [|reflexivity].
      erewrite bind_ok; [|exact Hu]. exact HW.
    + rewrite Hc. reflexivity.
    + rewrite Hcf. reflexivity.
    + intros n. rewrite Ho. unfold w2, w1; simpl.
      destruct (string_dec (fst x) n) as [<-|Hne].
      * rewrite lookup_delete_eq. destruct (in_dec string_dec (fst x) (map fst fs)); reflexivity.
      * rewrite lookup_delete_ne by exact Hne.
        destruct (in_dec string_dec n (map fst fs)) as [Hi|Hi];
          destruct (in_dec string_dec n (fst x :: map fst fs)) as [Hj|Hj]; try reflexivity;
          exfalso; simpl in Hj; tauto.
Qed.

Lemma in_dec_app (n : string) (a b : list string) {A : Type} (x y : A) :
  (if in_dec string_dec n (a ++ b) then x else y)
  = (if in_dec string_dec n a then x else if in_dec string_dec n b then x else y).
Proof.
  destruct (in_dec string_dec n (a ++ b)) as [H|H];
    destruct (in_dec string_dec n a) as [Ha|Ha]; destruct (in_dec string_dec n b) as [Hb|Hb];
    try reflexivity; exfalso; rewrite in_app_iff in H; tauto.
Qed.

Lemma clean_groups_spec (k : Z) (G : list (string * list (string * file))) (acc : Z * Z) (w : world) :
  NoDup (map fst (doomed k G)) ->
  (forall x, In x (doomed k G) -> is_Some (w_odir w !! fst x)) ->
  exists acc' W, clean_groups k G acc w = (Ok acc', W)
    /\ w_config W = w_config w /\ w_config_file W = w_config_file w
    /\ forall n, w_odir W !! n = if in_dec string_dec n (map fst (doomed k G)) then None else w_odir w !! n.
Proof.
  revert acc w. induction G as [|[r files] G IH]; intros acc w Hnd Hin.
  - exists acc, w. repeat split.
  - unfold doomed in Hnd, Hin. simpl in Hnd, Hin. fold (doomed k G) in Hnd, Hin.
    rewrite map_app in Hnd. apply NoDup_app in Hnd as (Hnd1 & Hdis & Hnd2).
    destruct (remove_files_spec (Py.slice_from k (sort_desc files)) acc w Hnd1) as (acc1 & W1 & H1 & Hc1 & Hcf1 & Ho1).
    { intros x Hx. apply Hin. apply in_or_app. left. exact Hx. }
    destruct (IH acc1 W1 Hnd2) as (acc' & W & HW & Hc & Hcf & Ho).
    { intros x Hx. rewrite Ho1.
      destruct (in_dec string_dec (fst x) (map fst (Py.slice_from k (sort_desc files)))) as [Hi|Hi].
      - exfalso. apply (Hdis (fst x)).
        + apply list_elem_of_In. exact Hi.
        + apply list_elem_of_In. now apply in_map.
      - apply Hin. apply in_or_app. right. exact Hx. }
    exists acc', W. split; [|split; [|split]].
    + simpl. erewrite bind_ok; [|exact H1]. exact HW.
    + rewrite Hc, Hc1. reflexivity.
    + rewrite Hcf, Hcf1. reflexivity.
    + intros n. unfold doomed. simpl. fold (doomed k G). rewrite map_app, in_dec_app.
      rewrite Ho, Ho1.
      destruct (in_dec string_dec n (map fst (Py.slice_from k (sort_desc files)))); 
        destruct (in_dec string_dec n (map fst (doomed k G))); reflexivity.
Qed.

Lemma split_on_aux_nonempty (sep : ascii) (s cur : string) : Py.split_on_aux sep s cur <> [].
Proof.
  revert cur. induction s as [|c s IH]; intros cur; simpl; [discriminate|].
  destruct (Ascii.eqb c sep); [discriminate | apply IH].
Qed.

(** [parts = file.stem.split('_')] is never empty. *)
Lemma repo_key_some (n : string) : exists r, repo_key n = Some r.
Proof.
  unfold repo_key, Py.split_on.
  destruct (Py.split_on_aux "_" (stem_md n) EmptyString) as [|r rest] eqn:E.
  - exfalso. exact (split_on_aux_nonempty _ _ _ E).
  - exists r. reflexivity.
Qed.

Lemma add_to_group_perm (r : string) (x : string * file) (G : list (string * list (string * file))) :
  concat (map snd (add_to_group r x G)) ≡ₚ concat (map snd G) ++ [x].
Proof.
  induction G as [|[r' xs] G IH]; simpl.
  - reflexivity.
  - destruct (String.eqb r r'); simpl.
    + rewrite <- !app_assoc. apply Permutation_app_head. apply Permutation_app_comm.
    + rewrite <- app_assoc. apply Permutation_app_head. exact IH.
Qed.

Lemma group_files_fold_perm (l : list (string * file)) (G0 : list (string * list (string * file))) :
  concat (map snd (fold_left (fun g x => match repo_key (fst x) with
                                         | Some r => add_to_group r x g
                                         | None => g
                                         end) l G0))
  ≡ₚ concat (map snd G0) ++ l.
Proof.
  revert G0. induction l as [|x l IH]; intros G0; simpl.
  - rewrite app_nil_r. reflexivity.
  - destruct (repo_key_some (fst x)) as [r Hr]. rewrite Hr.
    rewrite IH. rewrite add_to_group_perm. rewrite <- app_assoc. reflexivity.
Qed.

(** Every artifact lands in exactly one group. *)
Lemma group_files_perm (l : list (string * file)) : concat (map snd (group_files l)) ≡ₚ l.
Proof. unfold group_files. rewrite group_files_fold_perm. reflexivity. Qed.

Lemma add_to_group_keys (r : string) (x : string * file) (G : list (string * list (string * file))) (r' : string) :
  In r' (map fst (add_to_group r x G)) -> r' = r \/ In r' (map fst G).
Proof.
  induction G as [|[r0 xs] G IH]; simpl.
  - intros [H|[]]. left. symmetry. exact H.
  - destruct (String.eqb r r0); simpl; [tauto|].
    intros [H|H]; [tauto|]. destruct (IH H); tauto.
Qed.

Lemma add_to_group_inv (r : string) (x : string * file) (G : list (string * list (string * file))) :
  repo_key (fst x) = Some r -> group_inv G -> group_inv (add_to_group r x G).
Proof.
  intros Hx [Hnd Hk]. induction G as [|[r0 xs] G IH]; simpl.
  - split.
    + constructor; [apply not_elem_of_nil | constructor].
    + intros r' xs' y [Heq|[]] Hy. injection Heq as <- <-. destruct Hy as [<-|[]]. exact Hx.
  - simpl in Hnd. inversion Hnd as [|? ? Hn0 Hnd']; subst.
    destruct (String.eqb r r0) eqn:Er.
    + apply String.eqb_eq in Er. subst r0. split; [exact Hnd|].
      intros r' xs' y [Heq|Hin] Hy.
      * injection Heq as <- <-. apply in_app_or in Hy as [Hy|[<-|[]]].
        -- exact (Hk r xs y (or_introl eq_refl) Hy).
        -- exact Hx.
      * exact (Hk r' xs' y (or_intror Hin) Hy).
    + destruct IH as [IHnd IHk].
      * exact Hnd'.
      * intros r' xs' y Hin Hy. exact (Hk r' xs' y (or_intror Hin) Hy).
      * split.
        -- simpl. constructor; [|exact IHnd].
           intros Hin. apply list_elem_of_In in Hin. destruct (add_to_group_keys r x G r0 Hin) as [He|He].
           ++ subst. rewrite String.eqb_refl in Er. discriminate.
           ++ apply Hn0. apply list_elem_of_In. exact He.
        -- intros r' xs' y [Heq|Hin] Hy.
           ++ injection Heq as <- <-. exact (Hk r0 xs y (or_introl eq_refl) Hy).
           ++ exact (IHk r' xs' y Hin Hy).
Qed.

(** The groups have distinct keys, and a group holds only files whose
    stem starts with its key. *)
Lemma group_files_inv (l : list (string * file)) : group_inv (group_files l).
Proof.
  unfold group_files.
  assert (H : forall G0, group_inv G0 ->
            group_inv (fold_left (fun g x => match repo_key (fst x) with
                                             | Some r => add_to_group r x g
                                             | None => g
                                             end) l G0)).
  { induction l as [|x l IH]; intros G0 HG; simpl; [exact HG|].
    apply IH. destruct (repo_key (fst x)) eqn:E; [|exact HG].
    apply add_to_group_inv; assumption. }
  apply H. split; [constructor | intros r xs x []].
Qed.

Lemma insert_desc_perm (x : string * file) (l : list (string * file)) : insert_desc x l ≡ₚ x :: l.
Proof.
  induction l as [|y l IH]; simpl; [reflexivity|].
  destruct (fmtime (snd x) <=? fmtime (snd y)); [|reflexivity].
  rewrite IH. apply perm_swap.
Qed.

Lemma sort_desc_perm (l : list (string * file)) : sort_desc l ≡ₚ l.
Proof.
  unfold sort_desc.
  assert (H : forall acc, fold_left (fun acc x => insert_desc x acc) l acc ≡ₚ l ++ acc).
  { induction l as [|x l IH]; intros acc; simpl; [reflexivity|].
    rewrite IH, insert_desc_perm. symmetry. apply Permutation_middle. }
  rewrite H, app_nil_r. reflexivity.
Qed.

Lemma insert_desc_sorted (x : string * file) (l : list (string * file)) :
  Sorted newer l ->
  Sorted newer (insert_desc x l) /\ (forall z, HdRel newer z l -> newer z x -> HdRel newer z (insert_desc x l)).
Proof.
  induction l as [|y l IH]; intros Hs; simpl.
  - split; [repeat constructor|]. intros z _ Hz. constructor. exact Hz.
  - inversion Hs as [|? ? Hs' Hhd]; subst.
    destruct (fmtime (snd x) <=? fmtime (snd y)) eqn:E.
    + apply Z.leb_le in E. destruct (IH Hs') as [IHs IHh]. split.
      * constructor; [exact IHs|]. apply IHh; [exact Hhd | exact E].
      * intros z Hz _. inversion Hz; subst. constructor. assumption.
    + apply Z.leb_gt in E. split.
      * constructor; [exact Hs|]. constructor. unfold newer. lia.
      * intros z _ Hz. constructor. exact Hz.
Qed.

(** [files.sort(key=mtime, reverse=True)] puts the files newest first. *)
Lemma sort_desc_sorted (l : list (string * file)) : Sorted newer (sort_desc l).
Proof.
  unfold sort_desc.
  assert (H : forall acc, Sorted newer acc -> Sorted newer (fold_left (fun acc x => insert_desc x acc) l acc)).
  { induction l as [|x l IH]; intros acc Ha; simpl; [exact Ha|].
    apply IH. apply insert_desc_sorted. exact Ha. }
  apply H. constructor.
Qed.

Lemma slice_from_suffix {A} (k : Z) (s : list A) : exists pre, s = (pre ++ Py.slice_from k s)%list.
Proof.
  unfold Py.slice_from. destruct (0 <=? k).
  - exists (firstn (Z.to_nat k) s). symmetry. apply firstn_skipn.
  - exists (firstn (length s - Z.to_nat (- k)) s). symmetry. apply firstn_skipn.
Qed.

Lemma doomed_perm (k : Z) (G : list (string * list (string * file))) :
  exists K, concat (map snd G) ≡ₚ doomed k G ++ K.
Proof.
  induction G as [|[r xs] G [K IH]]; simpl.
  - exists []. reflexivity.
  - destruct (slice_from_suffix k (sort_desc xs)) as [pre Hpre].
    exists (pre ++ K)%list. unfold doomed. simpl. fold (doomed k G).
    assert (E : forall a b c d : list (string * file), ((a ++ b) ++ c ++ d)%list ≡ₚ ((b ++ c) ++ a ++ d)%list).
    { intros a b c d. rewrite <- !app_assoc. rewrite (app_assoc a b), (Permutation_app_comm a b).
      rewrite <- app_assoc. apply Permutation_app_head.
      rewrite !app_assoc. apply Permutation_app_tail. apply Permutation_app_comm. }
    transitivity ((pre ++ Py.slice_from k (sort_desc xs)) ++ (doomed k G ++ K))%list.
    + apply Permutation_app; [|exact IH]. rewrite <- Hpre. symmetry. apply sort_desc_perm.
    + apply E.
Qed.

Lemma glob_md_in (w : world) (x : string * file) :
  In x (glob_md w) <-> w_odir w !! fst x = Some (snd x) /\ Py.endswith ".md" (fst x) = true.
Proof.
  rewrite <- list_elem_of_In. unfold glob_md. rewrite list_elem_of_filter.
  destruct x as [n f]. rewrite elem_of_map_to_list. simpl.
  split; intros [H1 H2]; split.
  - exact H2.
  - destruct (Py.endswith ".md" n); [reflexivity | contradiction].
  - rewrite H2. exact I.
  - exact H1.
Qed.

Lemma fmap_fst_map (l : list (string * file)) : l.*1 = map fst l.
Proof. induction l as [|x l IH]; [reflexivity | exact (f_equal (cons (fst x)) IH)]. Qed.

Lemma in_map_fst_filter (P : string * file -> Prop) `{!forall x, Decision (P x)} (l : list (string * file)) (n : string) :
  In n (map fst (filter P l)) -> In n (map fst l).
Proof.
  intros Hn. apply in_map_iff in Hn as (x & <- & Hx).
  apply in_map. apply list_elem_of_In in Hx. apply list_elem_of_filter in Hx as [_ Hx].
  by apply list_elem_of_In.
Qed.

Lemma NoDup_fst_filter (P : string * file -> Prop) `{!forall x, Decision (P x)} (l : list (string * file)) :
  NoDup (map fst l) -> NoDup (map fst (filter P l)).
Proof.
  induction l as [|x l IH]; intros Hnd; [constructor|].
  simpl in Hnd. inversion Hnd as [|? ? Hx Hnd']; subst.
  rewrite filter_cons. destruct (decide (P x)); simpl; [|exact (IH Hnd')].
  constructor; [|exact (IH Hnd')].
  intros Hin. apply Hx. apply list_elem_of_In. apply (in_map_fst_filter P).
  by apply list_elem_of_In.
Qed.

Lemma glob_md_nodup (w : world) : NoDup (map fst (glob_md w)).
Proof.
  unfold glob_md. apply NoDup_fst_filter. rewrite <- fmap_fst_map.
  apply NoDup_fst_map_to_list.
Qed.

Lemma cleaned_facts (k : Z) (w : world) :
  NoDup (map fst (cleaned k w)) /\ forall x, In x (cleaned k w) -> In x (glob_md w).
Proof.
  destruct (doomed_perm k (group_files (glob_md w))) as [K HK].
  rewrite group_files_perm in HK. fold (cleaned k w) in HK.
  split.
  - pose proof (glob_md_nodup w) as Hnd.
    rewrite (Permutation_map fst HK), map_app in Hnd.
    apply NoDup_app in Hnd as [Hnd _]. exact Hnd.
  - intros x Hx. apply (Permutation_in x (Permutation_sym HK)). apply in_or_app. left. exact Hx.
Qed.

(** What [clean_old(k)] does to the output directory, for every [k]: it
    deletes exactly the files of [cleaned k w], never fails, and leaves
    the configuration alone. *)
Lemma clean_old_effect (k : Z) (w : world) :
  exists W, clean_old k w = (Ok tt, W)
    /\ w_config W = w_config w /\ w_config_file W = w_config_file w
    /\ forall n, w_odir W !! n = if in_dec string_dec n (map fst (cleaned k w)) then None else w_odir w !! n.
Proof.
  destruct (cleaned_facts k w) as [Hnd Hin].
  set (w1 := snd (print ("
=== Cleaning old files (keeping latest " ++ Py.str_int k ++ " per repo) ===") w)).
  destruct (clean_groups_spec k (group_files (glob_md w)) (0, 0) w1 Hnd) as (acc & W1 & H1 & Hc & Hcf & Ho).
  { intros x Hx. apply Hin in Hx. apply glob_md_in in Hx as [Hx _]. unfold w1; simpl. by exists (snd x). }
  eexists. split; [|split; [|split]].
  - unfold clean_old. erewrite bind_ok; [|reflexivity].
    erewrite bind_ok; [|reflexivity].
    erewrite bind_ok; [|exact H1]. reflexivity.
  - simpl. rewrite Hc. reflexivity.
  - simpl. rewrite Hcf. reflexivity.
  - intros n. simpl. rewrite Ho. reflexivity.
Qed.

Lemma NoDup_of_map {A B} (f : A -> B) (l : list A) : NoDup (map f l) -> NoDup l.
Proof.
  induction l as [|x l IH]; intros H; [constructor|].
  simpl in H. inversion H as [|? ? Hx Hnd]; subst. constructor; [|exact (IH Hnd)].
  intros Hin. apply Hx. apply list_elem_of_In. apply in_map. by apply list_elem_of_In.
Qed.

Lemma keys_unique (G : list (string * list (string * file))) (r : string) (a b : list (string * file)) :
  NoDup (map fst G) -> In (r, a) G -> In (r, b) G -> a = b.
Proof.
  induction G as [|[r0 xs] G IH]; intros Hnd Ha Hb; [destruct Ha|].
  simpl in Hnd. inversion Hnd as [|? ? Hn Hnd']; subst.
  destruct Ha as [Ha|Ha]; destruct Hb as [Hb|Hb].
  - injection Ha as E1 E2. injection Hb as E3 E4. congruence.
  - injection Ha as E1 E2. subst. exfalso. apply Hn. apply list_elem_of_In. exact (in_map fst _ (r, b) Hb).
  - injection Hb as E1 E2. subst. exfalso. apply Hn. apply list_elem_of_In. exact (in_map fst _ (r, a) Ha).
  - exact (IH Hnd' Ha Hb).
Qed.

Lemma concat_map_nil {A B} (f : A -> list B) (G : list A) :
  (forall g, In g G -> f g = []) -> concat (map f G) = [].
Proof.
  induction G as [|g G IH]; intros H; [reflexivity|].
  simpl. rewrite (H g (or_introl eq_refl)). apply IH. intros g' Hg. exact (H g' (or_intror Hg)).
Qed.

Lemma in_groups (l : list (string * file)) (x : string * file) :
  In x l -> exists g, In g (group_files l) /\ In x (snd g).
Proof.
  intros Hx. apply (Permutation_in x (Permutation_sym (group_files_perm l))) in Hx.
  apply in_concat in Hx as (xs & Hxs & Hx). apply in_map_iff in Hxs as (g & <- & Hg).
  exists g. split; assumption.
Qed.

Lemma group_nodup (l : list (string * file)) (g : string * list (string * file)) :
  NoDup (map fst l) -> In g (group_files l) -> NoDup (snd g).
Proof.
  intros Hnd Hg. apply NoDup_of_map in Hnd.
  rewrite <- (group_files_perm l) in Hnd.
  apply in_split in Hg as (A & B & E). rewrite E in Hnd.
  rewrite map_app, concat_app in Hnd. simpl in Hnd.
  apply NoDup_app in Hnd as (_ & _ & Hnd). apply NoDup_app in Hnd as (Hnd & _ & _). exact Hnd.
Qed.

Lemma cleaned_nonneg (k : Z) (w : world) : 0 <= k -> cleaned k w = beyond_first (Z.to_nat k) w.
Proof.
  intros Hk. unfold cleaned, beyond_first, Py.slice_from.
  destruct (0 <=? k) eqn:E; [reflexivity|]. apply Z.leb_gt in E. lia.
Qed.

Lemma cleaned_neg (k : Z) (w : world) : k < 0 -> cleaned k w = oldest (Z.to_nat (- k)) w.
Proof.
  intros Hk. unfold cleaned, oldest, Py.slice_from.
  destruct (0 <=? k) eqn:E; [apply Z.leb_le in E; lia | reflexivity].
Qed.

(** After [clean_old(k)], [k >= 0], no group has more than [k] files
    left, so a second run finds nothing to delete. *)
Lemma cleaned_after_clean (k : Z) (w W : world) :
  0 <= k ->
  (forall n, w_odir W !! n = if in_dec string_dec n (map fst (cleaned k w)) then None else w_odir w !! n) ->
  cleaned k W = [].
Proof.
  intros Hk HW.
  assert (Hkept : forall x, In x (glob_md W) -> In x (glob_md w) /\ ~ In (fst x) (map fst (cleaned k w))).
  { intros x Hx. apply glob_md_in in Hx as [Hl He]. rewrite HW in Hl.
    destruct (in_dec string_dec (fst x) (map fst (cleaned k w))) as [Hi|Hi]; [discriminate|].
    split; [apply glob_md_in; split; assumption | exact Hi]. }
  destruct (group_files_inv (glob_md w)) as [Hnd1 Hkey1].
  destruct (group_files_inv (glob_md W)) as [Hnd2 Hkey2].
  unfold cleaned. apply concat_map_nil. intros [r xs2] Hg2. simpl.
  unfold Py.slice_from. destruct (0 <=? k) eqn:E; [|apply Z.leb_gt in E; lia].
  apply skipn_all2. rewrite (Permutation_length (sort_desc_perm xs2)).
  destruct xs2 as [|x0 xs2'] eqn:Exs; [simpl; lia|]. rewrite <- Exs.
  (* the group of [x0] in the first run *)
  assert (Hx0 : In x0 (glob_md W)).
  { apply (Permutation_in x0 (group_files_perm (glob_md W))). apply in_concat.
    exists xs2. split; [apply in_map_iff; exists (r, xs2); split; [reflexivity | rewrite Exs; exact Hg2] | rewrite Exs; left; reflexivity]. }
  destruct (in_groups (glob_md w) x0 (proj1 (Hkept x0 Hx0))) as [[r1 xs1] [Hg1 Hin1]].
  assert (Hr1 : r1 = r).
  { pose proof (Hkey1 r1 xs1 x0 Hg1 Hin1) as K1. rewrite <- Exs in Hg2.
    pose proof (Hkey2 r xs2 x0 Hg2 ltac:(rewrite Exs; left; reflexivity)) as K2. congruence. }
  subst r1. rewrite <- Exs in Hg2.
  assert (Hincl : incl xs2 (firstn (Z.to_nat k) (sort_desc xs1))).
  { intros x Hx.
    assert (HxW : In x (glob_md W)).
    { apply (Permutation_in x (group_files_perm (glob_md W))). apply in_concat.
      exists xs2. split; [apply in_map_iff; exists (r, xs2); split; [reflexivity | exact Hg2] | exact Hx]. }
    destruct (Hkept x HxW) as [Hxw Hnot].
    destruct (in_groups (glob_md w) x Hxw) as [[r' xs1'] [Hg1' Hin1']].
    assert (r' = r) as ->.
    { pose proof (Hkey1 r' xs1' x Hg1' Hin1'). pose proof (Hkey2 r xs2 x Hg2 Hx). congruence. }
    rewrite (keys_unique _ r xs1' xs1 Hnd1 Hg1' Hg1) in Hin1'.
    apply (Permutation_in x (Permutation_sym (sort_desc_perm xs1))) in Hin1'.
    rewrite <- (firstn_skipn (Z.to_nat k) (sort_desc xs1)) in Hin1'.
    apply in_app_or in Hin1' as [H|H]; [exact H|].
    exfalso. apply Hnot. apply in_map. unfold cleaned. apply in_concat.
    exists (Py.slice_from k (sort_desc xs1)). split.
    - apply in_map_iff. exists (r, xs1). split; [reflexivity | exact Hg1].
    - unfold Py.slice_from. rewrite E. exact H. }
  apply (Nat.le_trans _ (length (firstn (Z.to_nat k) (sort_desc xs1)))).
  - apply NoDup_incl_length; [|exact Hincl].
    apply NoDup_ListNoDup. exact (group_nodup (glob_md W) (r, xs2) (glob_md_nodup W) Hg2).
  - rewrite length_firstn. lia.
Qed.

(** C10: for every keep-count, [clean_old] never fails, only removes
    entries (never creates or rewrites one), and only entries whose names
    match [*.md]; the ingestion log in the same directory and the
    configuration, in memory and on disk, are left unchanged. *)
Theorem clean_old_only_md (k : Z) (w : world) :
  exists W, clean_old k w = (Ok tt, W)
    /\ (forall n, w_odir W !! n = w_odir w !! n
                  \/ (w_odir W !! n = None /\ Py.endswith ".md" n = true))
    /\ (forall n, Py.endswith ".md" n = false -> w_odir W !! n = w_odir w !! n)
    /\ w_odir W !! log_name = w_odir w !! log_name
    /\ w_config W = w_config w /\ w_config_file W = w_config_file w.
Proof.
  destruct (clean_old_effect k w) as (W & HW & Hc & Hcf & Ho).
  destruct (cleaned_facts k w) as [_ Hin].
  assert (Hmd : forall n, In n (map fst (cleaned k w)) -> Py.endswith ".md" n = true).
  { intros n Hn. apply in_map_iff in Hn as (x & <- & Hx).
    apply Hin, glob_md_in in Hx as [_ He]. exact He. }
  assert (Hother : forall n, Py.endswith ".md" n = false -> w_odir W !! n = w_odir w !! n).
  { intros n Hn. rewrite Ho. destruct (in_dec string_dec n (map fst (cleaned k w))) as [Hi|Hi]; [|reflexivity].
    rewrite (Hmd n Hi) in Hn. discriminate. }
  exists W. split; [exact HW|]. split; [|split; [exact Hother|split; [|split; assumption]]].
  - intros n. rewrite Ho. destruct (in_dec string_dec n (map fst (cleaned k w))) as [Hi|Hi].
    + right. split; [reflexivity | exact (Hmd n Hi)].
    + left. reflexivity.
  - apply Hother. reflexivity.
Qed.

Lemma clean_old_only_md_witness :
  exists W, clean_old (-1) two_artifacts = (Ok tt, W)
    /\ w_odir W !! log_name = Some (mkFile (Json (JArr [])) 20).
Proof.
  destruct (clean_old_only_md (-1) two_artifacts) as (W & HW & _ & _ & Hlog & _).
  exists W. split; [exact HW|]. rewrite Hlog. reflexivity.
Defined.

(** C9 (amended): [clean_old(k)] groups the [*.md] artifacts by the
    text before the first [_] of the stem (every artifact in exactly one
    group, groups with distinct keys, each file in the group of its own
    key) and orders each group newest first by modification time. For
    [k >= 0] it deletes exactly the files beyond the first [k] of each
    group and nothing else, and a second run then deletes nothing. For
    [k < 0], [files[k:]] is the last [|k|] files of each group in that
    order, its [|k|] oldest (the whole group when it has at most [|k|]
    files), and it is exactly those that are deleted. *)
Theorem clean_old_keeps_latest (k : Z) (w : world) :
  let G := group_files (glob_md w) in
  (concat (map snd G) ≡ₚ glob_md w
   /\ NoDup (map fst G)
   /\ (forall r xs x, In (r, xs) G -> In x xs -> repo_key (fst x) = Some r))
  /\ (forall xs, sort_desc xs ≡ₚ xs /\ Sorted newer (sort_desc xs))
  /\ (0 <= k ->
      (exists W, clean_old k w = (Ok tt, W)
         /\ forall n, w_odir W !! n = if in_dec string_dec n (map fst (beyond_first (Z.to_nat k) w))
                                    then None else w_odir w !! n)
      /\ w_odir (snd (clean_old k (snd (clean_old k w)))) = w_odir (snd (clean_old k w)))
  /\ (k < 0 ->
      exists W, clean_old k w = (Ok tt, W)
        /\ forall n, w_odir W !! n = if in_dec string_dec n (map fst (oldest (Z.to_nat (- k)) w))
                                   then None else w_odir w !! n).
Proof.
  intros G.
  destruct (clean_old_effect k w) as (W & HW & _ & _ & Ho).
  split; [|split; [|split]].
  - destruct (group_files_inv (glob_md w)) as [Hnd Hkey].
    split; [apply group_files_perm | split; assumption].
  - intros xs. split; [apply sort_desc_perm | apply sort_desc_sorted].
  - intros Hk. split.
    + exists W. split; [exact HW|]. rewrite <- cleaned_nonneg by exact Hk. exact Ho.
    + rewrite HW. simpl.
      destruct (clean_old_effect k W) as (W2 & HW2 & _ & _ & Ho2).
      rewrite HW2. simpl. apply map_eq. intros n. rewrite Ho2.
      rewrite (cleaned_after_clean k w W Hk Ho). reflexivity.
  - intros Hk. exists W. split; [exact HW|]. rewrite <- cleaned_neg by exact Hk. exact Ho.
Qed.

Lemma clean_old_keeps_latest_witness :
  w_odir (snd (clean_old 1 (snd (clean_old 1 two_artifacts)))) = w_odir (snd (clean_old 1 two_artifacts))
  /\ w_odir (snd (clean_old 1 two_artifacts)) !! "repo1_v1_1k.md" = None
  /\ w_odir (snd (clean_old (-1) two_artifacts)) !! "repo1_v1_1k.md" = None.
Proof.
  destruct (clean_old_keeps_latest 1 two_artifacts) as (_ & _ & Hpos & _).
  destruct (Hpos ltac:(lia)) as ((W & HW & Ho) & Hidem).
  destruct (clean_old_keeps_latest (-1) two_artifacts) as (_ & _ & _ & Hneg).
  destruct (Hneg ltac:(lia)) as (W' & HW' & Ho').
  split; [exact Hidem|]. split.
  - rewrite HW. simpl. rewrite Ho. vm_compute. reflexivity.
  - rewrite HW'. simpl. rewrite Ho'. vm_compute. reflexivity.
Defined.

(** C9 fails for a negative keep-count: [files[-1:]] is the oldest file
    of each group, so each run deletes one more file and a second run
    changes the directory again. *)
Lemma clean_old_negative_not_idempotent :
  w_odir (snd (clean_old (-1) two_artifacts)) !! "repo1_latest_1k.md" = Some (mkFile (Text "new") 20)
  /\ w_odir (snd (clean_old (-1) (snd (clean_old (-1) two_artifacts)))) !! "repo1_latest_1k.md" = None.
Proof. split; vm_compute; reflexivity. Qed.

Lemma rhe_spec (a b : Z) : 0 < b -> - b <= 2 * (Fmt.rhe a b * b - a) <= b.
Proof.
  intros Hb. unfold Fmt.rhe.
  pose proof (Z.div_mod a b ltac:(lia)) as Ha. pose proof (Z.mod_pos_bound a b Hb) as Hr.
  set (q := a / b) in *. set (r := a mod b) in *.
  destruct (2 * r <? b) eqn:E1; [apply Z.ltb_lt in E1; nia|apply Z.ltb_ge in E1].
  destruct (b <? 2 * r) eqn:E2; [apply Z.ltb_lt in E2; nia|apply Z.ltb_ge in E2].
  destruct (Z.even q); nia.
Qed.

Lemma scaled_floor_eq (a b e : Z) :
  Fmt.scaled_floor a b e = (a * 2 ^ Z.max (- e) 0) / (b * 2 ^ Z.max e 0).
Proof.
  unfold Fmt.scaled_floor. destruct (Z.leb_spec 0 e).
  - rewrite (Z.max_r (- e) 0) by lia. rewrite (Z.max_l e 0) by lia. now rewrite Z.pow_0_r, Z.mul_1_r.
  - rewrite (Z.max_l (- e) 0) by lia. rewrite (Z.max_r e 0) by lia. now rewrite Z.pow_0_r, Z.mul_1_r.
Qed.

Lemma scaled_rhe_eq (a b e : Z) :
  Fmt.scaled_rhe a b e = Fmt.rhe (a * 2 ^ Z.max (- e) 0) (b * 2 ^ Z.max e 0).
Proof.
  unfold Fmt.scaled_rhe. destruct (Z.leb_spec 0 e).
  - rewrite (Z.max_r (- e) 0) by lia. rewrite (Z.max_l e 0) by lia. now rewrite Z.pow_0_r, Z.mul_1_r.
  - rewrite (Z.max_l (- e) 0) by lia. rewrite (Z.max_r e 0) by lia. now rewrite Z.pow_0_r, Z.mul_1_r.
Qed.

(** Going one exponent down doubles the scaled quotient. *)
Lemma scale_pred (e : Z) :
  2 ^ Z.max (- (e - 1)) 0 * 2 ^ Z.max e 0 = 2 * (2 ^ Z.max (- e) 0 * 2 ^ Z.max (e - 1) 0).
Proof.
  destruct (Z.le_gt_cases 1 e) as [H|H].
  - rewrite (Z.max_r (- (e - 1)) 0), (Z.max_r (- e) 0), (Z.max_l e 0), (Z.max_l (e - 1) 0) by lia.
    replace e with (Z.succ (e - 1)) at 1 by lia. rewrite Z.pow_succ_r by lia. ring.
  - rewrite (Z.max_l (- (e - 1)) 0), (Z.max_l (- e) 0), (Z.max_r (e - 1) 0) by lia.
    destruct (Z.le_gt_cases 0 e) as [H0|H0].
    + assert (e = 0) as -> by lia. reflexivity.
    + rewrite (Z.max_r e 0) by lia. replace (- (e - 1)) with (Z.succ (- e)) by lia.
      rewrite Z.pow_succ_r by lia. ring.
Qed.

Lemma div_lt_iff (x y k : Z) : 0 < y -> (x / y < k <-> x < k * y).
Proof.
  intros Hy. split; intros H.
  - destruct (Z.lt_ge_cases x (k * y)) as [|H']; [assumption|].
    exfalso. pose proof (Z.div_le_lower_bound x y k Hy ltac:(lia)). lia.
  - apply Z.div_lt_upper_bound; lia.
Qed.

(** The exponent [e] puts [a / b] in [[2^52, 2^53)] after scaling. *)
Lemma exponent_bounds (a b : Z) :
  0 < b <= a ->
  let e := Fmt.exponent a b in
  2 ^ 52 * (b * 2 ^ Z.max e 0) <= a * 2 ^ Z.max (- e) 0 < 2 ^ 53 * (b * 2 ^ Z.max e 0).
Proof.
  intros Hab e.
  set (la := Z.log2 a). set (lb := Z.log2 b).
  pose proof (Z.log2_spec a ltac:(lia)) as Ha. pose proof (Z.log2_spec b ltac:(lia)) as Hb.
  fold la in Ha. fold lb in Hb.
  assert (Hle : lb <= la) by (apply Z.log2_le_mono; lia).
  assert (Hlb0 : 0 <= lb) by apply Z.log2_nonneg.
  set (e0 := la - lb - 52).
  set (M0 := 2 ^ Z.max (- e0) 0). set (D0 := 2 ^ Z.max e0 0).
  assert (HM0 : 0 < M0) by (apply Z.pow_pos_nonneg; lia).
  assert (HD0 : 0 < D0) by (apply Z.pow_pos_nonneg; lia).
  assert (Hrel : 2 ^ la * M0 = 2 ^ lb * 2 ^ 52 * D0).
  { unfold M0, D0, e0. destruct (Z.le_gt_cases 0 (la - lb - 52)).
    - rewrite (Z.max_r (- _) 0), (Z.max_l (la - lb - 52) 0) by lia. rewrite Z.pow_0_r, Z.mul_1_r.
      rewrite <- !Z.pow_add_r by lia. f_equal; lia.
    - rewrite (Z.max_l (- _) 0), (Z.max_r (la - lb - 52) 0) by lia. rewrite Z.pow_0_r, Z.mul_1_r.
      rewrite <- !Z.pow_add_r by lia. f_equal; lia. }
  rewrite Z.pow_succ_r in Ha, Hb by lia.
  assert (H1 : b * D0 < 2 * 2 ^ lb * D0) by (apply Z.mul_lt_mono_pos_r; lia).
  assert (H2 : 2 ^ la * M0 <= a * M0) by (apply Z.mul_le_mono_nonneg_r; lia).
  assert (H3 : a * M0 < 2 * 2 ^ la * M0) by (apply Z.mul_lt_mono_pos_r; lia).
  assert (H4 : 2 ^ lb * D0 <= b * D0) by (apply Z.mul_le_mono_nonneg_r; lia).
  assert (Hlo0 : 2 ^ 51 * (b * D0) < a * M0).
  { assert (E2 : 2 ^ 51 * (2 * 2 ^ lb * D0) = 2 ^ la * M0) by (rewrite Hrel; ring). lia. }
  assert (Hhi0 : a * M0 < 2 ^ 53 * (b * D0)).
  { assert (E2 : 2 * 2 ^ la * M0 = 2 ^ 53 * (2 ^ lb * D0)) by (rewrite <- Z.mul_assoc, Hrel; ring). lia. }
  unfold e, Fmt.exponent. fold la lb e0.
  rewrite scaled_floor_eq. fold M0 D0.
  assert (HbD0 : 0 < b * D0) by lia.
  destruct ((a * M0) / (b * D0) <? 2 ^ 52) eqn:E.
  - apply Z.ltb_lt in E.
    apply (div_lt_iff _ _ _ HbD0) in E.
    pose proof (scale_pred e0) as Hs. fold M0 D0 in Hs.
    set (M1 := 2 ^ Z.max (- (e0 - 1)) 0) in *. set (D1 := 2 ^ Z.max (e0 - 1) 0) in *.
    assert (HD1 : 0 < D1) by (apply Z.pow_pos_nonneg; lia).
    split.
    + apply Z.lt_le_incl. apply (Z.mul_lt_mono_pos_r D0); [exact HD0|].
      assert (Hx : a * M1 * D0 = 2 * D1 * (a * M0)) by (rewrite <- Z.mul_assoc, Hs; ring).
      assert (Hy : 2 ^ 52 * (b * D1) * D0 = 2 * D1 * (2 ^ 51 * (b * D0))) by ring.
      rewrite Hx, Hy. apply Z.mul_lt_mono_pos_l; [lia | exact Hlo0].
    + apply (Z.mul_lt_mono_pos_r D0); [exact HD0|].
      assert (Hx : a * M1 * D0 = 2 * D1 * (a * M0)) by (rewrite <- Z.mul_assoc, Hs; ring).
      assert (Hy : 2 ^ 53 * (b * D1) * D0 = 2 * D1 * (2 ^ 52 * (b * D0))) by ring.
      rewrite Hx, Hy. apply Z.mul_lt_mono_pos_l; [lia | exact E].
  - apply Z.ltb_ge in E.
    split; [|exact Hhi0].
    destruct (Z.lt_ge_cases (a * M0) (2 ^ 52 * (b * D0))) as [H|H]; [|exact H].
    apply (div_lt_iff _ _ _ HbD0) in H. lia.
Qed.

Lemma mantissa_range (X Y m : Z) :
  0 < Y -> 2 ^ 52 * Y <= X < 2 ^ 53 * Y -> - Y <= 2 * (m * Y - X) <= Y ->
  2 ^ 52 <= m <= 2 ^ 53.
Proof. intros HY HX Hm. split; nia. Qed.

Lemma true_div_facts (c : Z) :
  10 ^ 6 <= c ->
  let e := Fmt.exponent c 1000000 in
  let m := Fmt.scaled_rhe c 1000000 e in
  let M := 2 ^ Z.max (- e) 0 in
  let D := 2 ^ Z.max e 0 in
  0 < M /\ 0 < D
  /\ 2 ^ 52 * (10 ^ 6 * D) <= c * M < 2 ^ 53 * (10 ^ 6 * D)
  /\ - (10 ^ 6 * D) <= 2 * (m * (10 ^ 6 * D) - c * M) <= 10 ^ 6 * D
  /\ 2 ^ 52 <= m <= 2 ^ 53.
Proof.
  intros Hc e m M D.
  assert (HM : 0 < M) by (apply Z.pow_pos_nonneg; lia).
  assert (HD : 0 < D) by (apply Z.pow_pos_nonneg; lia).
  pose proof (exponent_bounds c 1000000 ltac:(lia)) as HB. fold e M D in HB.
  pose proof (rhe_spec (c * M) (1000000 * D) ltac:(lia)) as HR.
  assert (Hm : m = Fmt.rhe (c * M) (1000000 * D)) by (unfold m; now rewrite scaled_rhe_eq).
  rewrite <- Hm in HR.
  change (10 ^ 6) with 1000000.
  do 3 (split; [assumption|]). split; [exact HR|].
  apply (mantissa_range (c * M) (1000000 * D)); [lia | exact HB | exact HR].
Qed.

Lemma pow2_le (x y : Z) : 0 <= x <= y -> 2 ^ x <= 2 ^ y.
Proof. intros H. apply Z.pow_le_mono_r; lia. Qed.

Lemma pow_1024 : 2 ^ 1024 = 2 ^ 54 * 2 ^ 970.
Proof. rewrite <- Z.pow_add_r by lia. reflexivity. Qed.

Lemma pow_971 : 2 ^ 971 = 2 * 2 ^ 970.
Proof. rewrite <- Z.pow_succ_r by lia. reflexivity. Qed.

Lemma pow_972 : 2 ^ 972 = 4 * 2 ^ 970.
Proof. change 4 with (2 ^ 2). rewrite <- Z.pow_add_r by lia. reflexivity. Qed.

(** Below the threshold, [count / 1_000_000] does not overflow. *)
Lemma true_div_no_overflow (c : Z) :
  10 ^ 6 <= c < overflow_threshold ->
  let e := Fmt.exponent c 1000000 in
  let m := Fmt.scaled_rhe c 1000000 e in
  ((0 <=? e) && (2 ^ 1024 <=? m * 2 ^ e)) = false.
Proof.
  intros Hc e m.
  destruct (true_div_facts c ltac:(lia)) as (HM & HD & HB & HR & Hm). fold e m in HB, HR, Hm, HM, HD.
  destruct (Z.leb_spec 0 e) as [He|He]; [|reflexivity]. simpl.
  rewrite (Z.max_r (- e) 0), (Z.max_l e 0) in HB, HR by lia. rewrite Z.pow_0_r, Z.mul_1_r in HB, HR.
  apply Z.leb_gt. unfold overflow_threshold in Hc. rewrite pow_1024 in Hc |- *.
  assert (HP : 0 < 2 ^ 970) by (apply Z.pow_pos_nonneg; lia).
  destruct (Z.le_gt_cases e 970) as [H|H].
  - pose proof (pow2_le e 970 ltac:(lia)) as HQ.
    assert (m * 2 ^ e <= 2 ^ 53 * 2 ^ e) by (apply Z.mul_le_mono_nonneg_r; lia).
    lia.
  - destruct (Z.le_gt_cases 972 e) as [H'|H'].
    + pose proof (pow2_le 972 e ltac:(lia)) as HQ. rewrite pow_972 in HQ.
      exfalso. lia.
    + assert (e = 971) as -> by lia. rewrite pow_971 in HR |- *. lia.
Qed.

(** From the threshold on, it raises [OverflowError]. *)
Lemma true_div_overflow (c : Z) :
  overflow_threshold <= c -> Fmt.true_div c 1000000 = Raise OverflowError.
Proof.
  intros Hc.
  destruct (Z.eq_dec c overflow_threshold) as [->|Hne]; [vm_compute; reflexivity|].
  assert (Hc' : overflow_threshold < c) by lia. clear Hc Hne.
  assert (H6 : 10 ^ 6 <= c).
  { unfold overflow_threshold in Hc'. assert (2 ^ 970 < 2 ^ 1024) by (apply Z.pow_lt_mono_r; lia). lia. }
  destruct (true_div_facts c H6) as (HM & HD & HB & HR & Hm).
  unfold overflow_threshold in Hc'. rewrite pow_1024 in Hc'.
  assert (HP : 0 < 2 ^ 970) by (apply Z.pow_pos_nonneg; lia).
  unfold Fmt.true_div.
  set (e := Fmt.exponent c 1000000) in *. set (m := Fmt.scaled_rhe c 1000000 e) in *.
  destruct (Z.leb_spec 0 e) as [He|He].
  - rewrite (Z.max_r (- e) 0), (Z.max_l e 0) in HB, HR by lia. rewrite Z.pow_0_r, Z.mul_1_r in HB, HR.
    replace (2 ^ 1024 <=? m * 2 ^ e) with true; [reflexivity|]. symmetry. apply Z.leb_le.
    rewrite pow_1024.
    destruct (Z.le_gt_cases e 970) as [H|H].
    + pose proof (pow2_le e 970 ltac:(lia)) as HQ. exfalso. lia.
    + destruct (Z.le_gt_cases 972 e) as [H'|H'].
      * pose proof (pow2_le 972 e ltac:(lia)) as HQ. rewrite pow_972 in HQ.
        assert (2 ^ 52 * 2 ^ e <= m * 2 ^ e) by (apply Z.mul_le_mono_nonneg_r; lia).
        lia.
      * assert (e = 971) as -> by lia. rewrite pow_971 in HR |- *. lia.
  - rewrite (Z.max_l (- e) 0), (Z.max_r e 0) in HB by lia. rewrite Z.pow_0_r, Z.mul_1_r in HB.
    exfalso. assert (1 <= 2 ^ (- e)) by (apply (pow2_le 0 (- e)); lia). nia.
Qed.

(** The one-decimal figure printed for [count / 1_000_000] is within
    [0.05 + x 2^-53] of the exact quotient [x]. *)
Lemma format_1f_error (c : Z) :
  10 ^ 6 <= c ->
  let e := Fmt.exponent c 1000000 in
  let m := Fmt.scaled_rhe c 1000000 e in
  let n := if 0 <=? e then 10 * m * 2 ^ e else Fmt.rhe (10 * m) (2 ^ (- e)) in
  2 ^ 54 * Z.abs (n * 10 ^ 5 - c) <= 2 ^ 53 * 10 ^ 5 + 2 * c.
Proof.
  intros Hc e m n.
  destruct (true_div_facts c Hc) as (HM & HD & HB & HR & Hm). fold e m in HB, HR, Hm, HM, HD.
  unfold n. destruct (Z.leb_spec 0 e) as [He|He].
  - rewrite (Z.max_r (- e) 0), (Z.max_l e 0) in HB, HR by lia. rewrite Z.pow_0_r, Z.mul_1_r in HB, HR.
    replace (10 * m * 2 ^ e * 10 ^ 5 - c) with (10 ^ 6 * (m * 2 ^ e) - c) by ring.
    destruct (Z.abs_spec (10 ^ 6 * (m * 2 ^ e) - c)) as [[_ ->]|[_ ->]]; lia.
  - rewrite (Z.max_l (- e) 0), (Z.max_r e 0) in HB, HR by lia. rewrite Z.pow_0_r, Z.mul_1_r in HB, HR.
    rewrite (Z.max_l (- e) 0) in HM by lia.
    set (M := 2 ^ (- e)) in *.
    set (k := Fmt.rhe (10 * m) M).
    pose proof (rhe_spec (10 * m) M HM) as Hk. fold k in Hk.
    apply (Z.mul_le_mono_pos_r _ _ M HM).
    assert (Ha : 2 ^ 54 * Z.abs (k * 10 ^ 5 - c) * M = 2 ^ 54 * Z.abs (10 ^ 5 * (k * M) - c * M)).
    { rewrite <- Z.mul_assoc, <- (Z.abs_eq M) at 1 by lia. rewrite <- Z.abs_mul. f_equal. f_equal. ring. }
    rewrite Ha.
    replace ((2 ^ 53 * 10 ^ 5 + 2 * c) * M) with (2 ^ 53 * 10 ^ 5 * M + 2 * (c * M)) by ring.
    destruct (Z.abs_spec (10 ^ 5 * (k * M) - c * M)) as [[_ ->]|[_ ->]]; lia.
Qed.

(** C3 (amended): below [1_000] the count is printed as is; from
    [1_000] to [999_999] as the truncated number of thousands with [k];
    from [1_000_000] up to [overflow_threshold] (about [1.8e314]) as a
    one-decimal figure with [M], the figure [n/10] being within
    [0.05 + x 2^-53] of the exact quotient [x = c / 1_000_000] (the
    division is rounded to a double, then to one decimal); from the
    threshold on, [count / 1_000_000] raises [OverflowError]. In
    particular [999], [1000] and [1_000_000] give ["999"], ["1k"] and
    ["1.0M"]. *)
Theorem format_token_count_spec (c : Z) :
  0 <= c ->
  (c < 1000 -> _format_token_count c = Ok (Py.str_int c))
  /\ (1000 <= c < 1000000 -> _format_token_count c = Ok (Py.str_int (c / 1000) ++ "k"))
  /\ (1000000 <= c < overflow_threshold ->
      exists n, _format_token_count c
                = Ok ((Py.str_nat (n / 10) ++ "." ++ String (Py.digit (n mod 10)) EmptyString) ++ "M")
        /\ 2 ^ 54 * Z.abs (n * 10 ^ 5 - c) <= 2 ^ 53 * 10 ^ 5 + 2 * c)
  /\ (overflow_threshold <= c -> _format_token_count c = Raise OverflowError)
  /\ _format_token_count 999 = Ok "999"
  /\ _format_token_count 1000 = Ok "1k"
  /\ _format_token_count 1000000 = Ok "1.0M".
Proof.
  intros Hc0. unfold _format_token_count.
  split; [|split; [|split; [|split]]].
  - intros H. rewrite (proj2 (Z.leb_gt 1000000 c)) by lia. rewrite (proj2 (Z.leb_gt 1000 c)) by lia. reflexivity.
  - intros H. rewrite (proj2 (Z.leb_gt 1000000 c)) by lia. rewrite (proj2 (Z.leb_le 1000 c)) by lia. reflexivity.
  - intros H. rewrite (proj2 (Z.leb_le 1000000 c)) by lia.
    pose proof (true_div_no_overflow c ltac:(lia)) as Hno.
    pose proof (format_1f_error c ltac:(lia)) as Herr.
    unfold Fmt.true_div. rewrite Hno.
    eexists. split; [reflexivity | exact Herr].
  - intros H. rewrite (proj2 (Z.leb_le 1000000 c)).
    + rewrite true_div_overflow by exact H. reflexivity.
    + unfold overflow_threshold in H.
      assert (2 ^ 970 < 2 ^ 1024) by (apply Z.pow_lt_mono_r; lia). lia.
  - repeat split; vm_compute; reflexivity.
Qed.

Lemma format_token_count_spec_witness :
  exists n, _format_token_count 1234567
            = Ok ((Py.str_nat (n / 10) ++ "." ++ String (Py.digit (n mod 10)) EmptyString) ++ "M")
    /\ 2 ^ 54 * Z.abs (n * 10 ^ 5 - 1234567) <= 2 ^ 53 * 10 ^ 5 + 2 * 1234567.
Proof.
  destruct (format_token_count_spec 1234567 ltac:(lia)) as (_ & _ & H & _).
  apply H. split; [lia | vm_compute; reflexivity].
Defined.

(** C3 fails as stated for huge counts: [2^1024 * 1_000_000] has no
    millions figure, [count / 1_000_000] raises [OverflowError]. *)
Lemma format_token_count_overflow :
  _format_token_count (2 ^ 1024 * 10 ^ 6) = Raise OverflowError.
Proof. vm_compute. reflexivity. Qed.

(** C2: the end-to-end scenario. The configuration has [repo1] with the
    two exclusions [*.log] and [node_modules/] and the profile
    [standard] adding [tests/]; the stub ingestion command writes a
    4000-character file and only accepts the expected command line, the
    stub counter reports 1000 tokens, and [git] has no origin remote.
    Whatever the log held before (nothing, or any JSON list), [ingest]
    builds the command with the three [-e] flags in their original order,
    succeeds, leaves the artifact as [repo1_latest_1k.md] (the temporary
    file gone), and appends exactly one log entry, with [tokens] 1000 and
    [characters] 4000. *)
Theorem ingest_scenario (prior : option (list json)) :
  let w := Scenario.start (Scenario.log_dir prior) "20260101_120000" in
  let r := ingest Scenario.stub_env "repo1" "standard" None w in
  fst (_build_gitingest_command "repo1" (path_join (out_dir w) (temp_name "repo1" (w_now w))) "standard" w)
    = Ok ["gitingest"; "/src/repo1"; "-o"; "out/repo1_temp_20260101_120000.md";
          "-e"; "*.log"; "-e"; "node_modules/"; "-e"; "tests/"]
  /\ String.length Scenario.text = 4000%nat
  /\ fst r = Ok tt
  /\ w_odir (snd r) !! "repo1_latest_1k.md" = Some (mkFile (Text Scenario.text) 100)
  /\ w_odir (snd r) !! "repo1_temp_20260101_120000.md" = None
  /\ exists kv, w_odir (snd r) !! log_name
                = Some (mkFile (Json (JArr (Scenario.prior_entries prior ++ [JObj kv])%list)) 100)
       /\ assoc "tokens" kv = Some (JInt 1000)
       /\ assoc "characters" kv = Some (JInt 4000).
Proof.
  intros w r.
  split; [vm_compute; reflexivity|].
  split; [vm_compute; reflexivity|].
  split; [destruct prior; vm_compute; reflexivity|].
  split; [destruct prior; vm_compute; reflexivity|].
  split; [destruct prior; vm_compute; reflexivity|].
  exists [("timestamp", JStr "20260101_120000"); ("repository", JStr "repo1");
          ("profile", JStr "standard"); ("file", JStr "repo1_latest_1k.md");
          ("tokens", JInt 1000); ("characters", JInt 4000); ("files", JInt 0);
          ("hash", JStr "0cc175b9")].
  split; [destruct prior; vm_compute; reflexivity|].
  split; reflexivity.
Qed.

End Props.

(* ================================================================== *)
(** * Further properties of the code *)

Module ListReposProps.
Import Manager Defs Cli Views Props.

Lemma printed_app (w : world) (a b : list string) : printed (printed w a) b = printed w (a ++ b).
Proof. unfold printed; simpl. by rewrite app_assoc. Qed.

Lemma print_printed (s : string) (w : world) : print s w = (Ok tt, printed w [s]).
Proof. reflexivity. Qed.

Lemma print_all_spec (l : list string) (w : world) : print_all l w = (Ok tt, printed w l).
Proof.
  revert w. induction l as [|s l IH]; intros w.
  - unfold printed. destruct w; simpl. by rewrite app_nil_r.
  - simpl. erewrite bind_ok; [|apply print_printed]. rewrite IH, printed_app. reflexivity.
Qed.

Lemma repo_lines_length (n : string) (rc : repo_config) :
  length (repo_lines n rc) =
  (4 + match metadata rc with
       | Some m => if String.eqb (last_updated m) EmptyString then 0 else 4
       | None => 0
       end)%nat.
Proof. unfold repo_lines. rewrite length_app. destruct (metadata rc) as [m|]; [destruct (String.eqb _ _)|]; reflexivity. Qed.

Lemma list_repos_output_core (w : world) :
  exists l, list_repos w = (Ok tt, printed w ("
=== Configured Repositories ===" :: l))
    /\ length l = (4 * length (repositories (w_config w)) + 4 * length (ingested_repos (w_config w)))%nat.
Proof.
  eexists. split.
  - unfold list_repos. erewrite bind_ok; [|apply print_printed].
    unfold bind, get. rewrite print_all_spec, printed_app. reflexivity.
  - unfold ingested_repos. simpl. induction (repositories (w_config w)) as [|[n rc] l IH]; [reflexivity|].
    cbn [map concat List.filter fst snd length]. rewrite length_app, repo_lines_length.
    cbn [map concat List.filter fst snd length] in IH. rewrite IH.
    destruct (metadata rc) as [m|]; [destruct (String.eqb _ _)|]; simpl; lia.
Qed.

(** [list_repos] never raises and changes nothing but the printed lines:
    the header, four lines per configured repository and four more for
    each repository whose metadata carries a non-empty [last_updated]. *)
Theorem list_repos_output (w : world) :
  exists l, list_repos w = (Ok tt, printed w ("
=== Configured Repositories ===" :: l))
    /\ length l = (4 * length (repositories (w_config w)) + 4 * length (ingested_repos (w_config w)))%nat.
Proof. exact (list_repos_output_core w). Qed.

Lemma assoc_split {A} (k : string) (v : A) (l : list (string * A)) (x : A) :
  assoc k l = Some x ->
  exists l1 l2, l = (l1 ++ (k, x) :: l2)%list /\ assoc_set k v l = (l1 ++ (k, v) :: l2)%list
    /\ map fst (assoc_set k v l) = map fst l.
Proof.
  induction l as [|[k' y] l IH]; simpl; [discriminate|].
  destruct (String.eqb k k') eqn:Ek.
  - apply String.eqb_eq in Ek; subst k'. intros [= <-]. exists [], l. auto.
  - intros H. destruct (IH H) as (l1 & l2 & -> & -> & Hm).
    exists ((k', y) :: l1), l2. simpl. rewrite Hm. auto.
Qed.

(** After [set_metadata r m] on a configured repository, [list_repos]
    shows that repository's block followed by the stamp, profile and
    counts of [m] (when the stamp is non-empty). *)
Theorem list_repos_after_set_metadata (r : string) (m : ingest_metadata) (rc : repo_config) (w : world) :
  assoc r (repositories (w_config w)) = Some rc ->
  last_updated m <> EmptyString ->
  let w1 := snd (set_metadata r m w) in
  exists pre post,
    w_out (snd (list_repos w1)) =
    app (w_out w1) (app ["
=== Configured Repositories ==="] (app pre (app
     ["
" ++ r ++ ":";
      "  Description: " ++ description rc;
      "  Source: " ++ source rc;
      "  Exclusions: " ++ Py.str_int (Z.of_nat (length (exclusions rc))) ++ " patterns";
      "  Last ingested: " ++ last_updated m;
      "  Last profile: " ++ meta_profile m;
      "  Tokens: " ++ Py.str_commas (token_count m);
      "  Characters: " ++ Py.str_commas (character_count m)] post))).
Proof.
  intros Ha Hm w1.
  destruct (assoc_split r (mkRepo (source rc) (description rc) (exclusions rc) (Some m)) _ _ Ha)
    as (l1 & l2 & Hl & Hs & _).
  assert (Hw1 : repositories (w_config w1) = (l1 ++ (r, mkRepo (source rc) (description rc) (exclusions rc) (Some m)) :: l2)%list).
  { unfold w1, set_metadata, bind, get. rewrite Ha. simpl. exact Hs. }
  destruct (list_repos_output_core w1) as (l & Hl' & _).
  exists (concat (map (fun '(n, rc) => repo_lines n rc) l1)), (concat (map (fun '(n, rc) => repo_lines n rc) l2)).
  unfold list_repos in *. unfold bind at 1. simpl.
  unfold bind, get. rewrite print_all_spec. simpl. rewrite Hw1.
  rewrite map_app, concat_app. simpl.
  unfold repo_lines at 2. simpl. apply String.eqb_neq in Hm. rewrite Hm.
  rewrite <- !app_assoc. reflexivity.
Qed.

(** [list_profiles] never raises and changes nothing but the printed
    lines: the header and three lines per profile. *)
Theorem list_profiles_output (w : world) :
  exists l, list_profiles w = (Ok tt, printed w ("
=== Available Profiles ===" :: l))
    /\ length l = (3 * length (profiles (w_config w)))%nat.
Proof.
  eexists. split.
  - unfold list_profiles. erewrite bind_ok; [|apply print_printed].
    unfold bind, get. rewrite print_all_spec, printed_app. reflexivity.
  - simpl. induction (profiles (w_config w)) as [|[n p] l IH]; [reflexivity|].
    simpl. rewrite IH. lia.
Qed.

End ListReposProps.

Module ListFileProps.
Import Manager Defs Cli Views Props ListReposProps.

Lemma rhe_exact (c b : Z) : 0 < b -> Fmt.rhe (c * b) b = c.
Proof.
  intros Hb. unfold Fmt.rhe. rewrite Z.div_mul, Z.mod_mul by lia.
  replace (2 * 0 <? b) with true by (symmetry; apply Z.ltb_lt; lia). reflexivity.
Qed.

Lemma rhe_scale (k a b : Z) : 0 < k -> 0 < b -> Fmt.rhe (k * a) (k * b) = Fmt.rhe a b.
Proof.
  intros Hk Hb. unfold Fmt.rhe.
  rewrite Z.div_mul_cancel_l by lia. rewrite Z.mul_mod_distr_l by lia.
  pose proof (Z.mod_pos_bound a b Hb).
  replace (2 * (k * (a mod b)) <? k * b) with (2 * (a mod b) <? b).
  2:{ destruct (2 * (a mod b) <? b) eqn:E1; symmetry;
      [apply Z.ltb_lt in E1; apply Z.ltb_lt; nia | apply Z.ltb_ge in E1; apply Z.ltb_ge; nia]. }
  replace (k * b <? 2 * (k * (a mod b))) with (b <? 2 * (a mod b)).
  2:{ destruct (b <? 2 * (a mod b)) eqn:E1; symmetry;
      [apply Z.ltb_lt in E1; apply Z.ltb_lt; nia | apply Z.ltb_ge in E1; apply Z.ltb_ge; nia]. }
  reflexivity.
Qed.

(** The exact quotient of a size below [2^53] by [2^20]. *)
Lemma mb_exact (a : Z) :
  0 <= a < 2 ^ 53 ->
  exists me, Fmt.true_div a (1024 * 1024) = Ok me
    /\ format_2f (fst me) (snd me) = two_decimals (Fmt.rhe (100 * a) (2 ^ 20)).
Proof.
  intros [Ha0 Ha1].
  destruct (Z.eq_dec a 0) as [->|Hnz]; [eexists; split; vm_compute; reflexivity|].
  assert (Hpos : 0 < a) by lia.
  pose proof (Z.log2_spec a Hpos) as [HL1 HL2].
  set (L := Z.log2 a) in *.
  assert (HL0 : 0 <= L) by (apply Z.log2_nonneg).
  assert (HL52 : L <= 52).
  { destruct (Z.le_gt_cases L 52) as [H|H]; [exact H|].
    assert (2 ^ 53 <= 2 ^ L) by (apply Z.pow_le_mono_r; lia). lia. }
  assert (Hsplit : 2 ^ (72 - L) = 2 ^ 20 * 2 ^ (52 - L))
    by (rewrite <- Z.pow_add_r by lia; f_equal; lia).
  assert (Hq : a * 2 ^ (72 - L) = (a * 2 ^ (52 - L)) * 2 ^ 20) by (rewrite Hsplit; ring).
  assert (HP : 0 < 2 ^ (52 - L)) by (apply Z.pow_pos_nonneg; lia).
  assert (Hbig : 2 ^ 52 <= a * 2 ^ (52 - L)).
  { replace (2 ^ 52) with (2 ^ L * 2 ^ (52 - L)) by (rewrite <- Z.pow_add_r by lia; f_equal; lia).
    apply Z.mul_le_mono_nonneg_r; lia. }
  assert (He : Fmt.exponent a (1024 * 1024) = L - 72).
  { unfold Fmt.exponent. replace (Z.log2 (1024 * 1024)) with 20 by reflexivity. fold L.
    unfold Fmt.scaled_floor.
    replace (0 <=? L - 20 - 52) with false by (symmetry; apply Z.leb_gt; lia).
    replace (- (L - 20 - 52)) with (72 - L) by lia.
    rewrite Hq. change (1024 * 1024) with (2 ^ 20). rewrite Z.div_mul by lia.
    replace (a * 2 ^ (52 - L) <? 2 ^ 52) with false by (symmetry; apply Z.ltb_ge; lia).
    ring. }
  assert (Hm : Fmt.scaled_rhe a (1024 * 1024) (L - 72) = a * 2 ^ (52 - L)).
  { unfold Fmt.scaled_rhe. replace (0 <=? L - 72) with false by (symmetry; apply Z.leb_gt; lia).
    replace (- (L - 72)) with (72 - L) by lia. rewrite Hq. apply rhe_exact. lia. }
  exists (a * 2 ^ (52 - L), L - 72). split.
  - unfold Fmt.true_div. rewrite He, Hm.
    replace (0 <=? L - 72) with false by (symmetry; apply Z.leb_gt; lia). reflexivity.
  - unfold format_2f, two_decimals. simpl fst. simpl snd.
    replace (0 <=? L - 72) with false by (symmetry; apply Z.leb_gt; lia).
    replace (- (L - 72)) with (72 - L) by lia.
    replace (100 * (a * 2 ^ (52 - L))) with (2 ^ (52 - L) * (100 * a)) by ring.
    replace (2 ^ (72 - L)) with (2 ^ (52 - L) * 2 ^ 20) by (rewrite Hsplit; ring).
    rewrite rhe_scale by lia. reflexivity.
Qed.

Lemma list_ingested_size_figure_core (local_time : Z -> string) (x : string * file) (w : world) :
  0 <= content_size (fdata (snd x)) < 2 ^ 53 ->
  let size := content_size (fdata (snd x)) in
  let n := Fmt.rhe (100 * size) (2 ^ 20) in
  list_file local_time x w = (Ok tt, printed w (file_lines local_time x))
  /\ - 2 ^ 20 <= 2 * (n * 2 ^ 20 - 100 * size) <= 2 ^ 20.
Proof.
  intros Hs size n. split.
  - destruct (mb_exact _ Hs) as (me & Hd & Hf).
    unfold list_file. erewrite bind_ok; [|unfold lift; rewrite Hd; reflexivity].
    rewrite Hf. do 2 (erewrite bind_ok; [|apply print_printed]).
    rewrite print_printed, !printed_app. reflexivity.
  - apply rhe_spec. lia.
Qed.

(** [list_ingested]: for a file below [2^53] bytes, [stat.st_size / (1024 * 1024)]
    is exact and [:.2f] prints it rounded to two decimals, ties to even:
    the figure [n / 100] printed is within half a hundredth of the size
    in MiB. *)
Theorem list_ingested_size_figure (local_time : Z -> string) (x : string * file) (w : world) :
  0 <= content_size (fdata (snd x)) < 2 ^ 53 ->
  let size := content_size (fdata (snd x)) in
  let n := Fmt.rhe (100 * size) (2 ^ 20) in
  list_file local_time x w = (Ok tt, printed w (file_lines local_time x))
  /\ - 2 ^ 20 <= 2 * (n * 2 ^ 20 - 100 * size) <= 2 ^ 20.
Proof. exact (list_ingested_size_figure_core local_time x w). Qed.

End ListFileProps.

Module ListIngestedProps.
Import Manager Defs Cli Views Props ListReposProps ListFileProps.










End ListIngestedProps.

Module StateProps.
Import Manager Defs Cli Views Props ListReposProps.

Lemma assoc_set_eq {A} (k : string) (v : A) (l : list (string * A)) : assoc k (assoc_set k v l) = Some v.
Proof.
  induction l as [|[k' y] l IH]; simpl; [by rewrite String.eqb_refl|].
  destruct (String.eqb k k') eqn:Ek; simpl; rewrite Ek; [reflexivity|exact IH].
Qed.

Lemma assoc_set_ne {A} (k k' : string) (v : A) (l : list (string * A)) :
  k' <> k -> assoc k' (assoc_set k v l) = assoc k' l.
Proof.
  intros Hne. induction l as [|[j y] l IH]; simpl.
  - apply String.eqb_neq in Hne. by rewrite Hne.
  - destruct (String.eqb k j) eqn:Ek; simpl.
    + apply String.eqb_eq in Ek; subst j. apply String.eqb_neq in Hne. by rewrite Hne.
    + destruct (String.eqb k' j); [reflexivity|exact IH].
Qed.

(** [set_metadata r m] ([repo_config['metadata'] = m]): on a configured
    repository it replaces that repository's metadata in memory and
    changes no other repository, the order of the repositories, the
    profiles, the settings, the configuration file or the output
    directory; on a repository that is not configured it raises
    [KeyError] and changes nothing. *)
Theorem set_metadata_update (r : string) (m : ingest_metadata) (w : world) :
  (assoc r (repositories (w_config w)) = None -> set_metadata r m w = (Raise KeyError, w))
  /\ (forall rc, assoc r (repositories (w_config w)) = Some rc ->
      let w' := snd (set_metadata r m w) in
      fst (set_metadata r m w) = Ok tt
      /\ assoc r (repositories (w_config w')) = Some (mkRepo (source rc) (description rc) (exclusions rc) (Some m))
      /\ (forall r', r' <> r -> assoc r' (repositories (w_config w')) = assoc r' (repositories (w_config w)))
      /\ map fst (repositories (w_config w')) = map fst (repositories (w_config w))
      /\ profiles (w_config w') = profiles (w_config w)
      /\ cfg_settings (w_config w') = cfg_settings (w_config w)
      /\ w_config_file w' = w_config_file w
      /\ w_odir w' = w_odir w).
Proof.
  split.
  - intros Hn. unfold set_metadata, bind, get. by rewrite Hn.
  - intros rc Hs w'. unfold w', set_metadata, bind, get. rewrite Hs. simpl.
    destruct (assoc_split r (mkRepo (source rc) (description rc) (exclusions rc) (Some m)) _ _ Hs)
      as (l1 & l2 & _ & _ & Hm).
    repeat split.
    + apply assoc_set_eq.
    + intros r' Hr'. by apply assoc_set_ne.
    + exact Hm.
Qed.

Lemma set_metadata_update_witness :
  let w := Scenario.start ∅ "t" in
  set_metadata "other" meta0 w = (Raise KeyError, w)
  /\ assoc "repo1" (repositories (w_config (snd (set_metadata "repo1" meta0 w))))
     = Some (mkRepo "/src/repo1" "first repository" ["*.log"; "node_modules/"] (Some meta0)).
Proof.
  intros w. destruct (set_metadata_update "other" meta0 w) as [H1 _].
  destruct (set_metadata_update "repo1" meta0 w) as [_ H2].
  split; [apply H1; reflexivity|].
  destruct (H2 (mkRepo "/src/repo1" "first repository" ["*.log"; "node_modules/"] None) eq_refl) as (_ & H & _).
  exact H.
Defined.

(** [ingest] of a repository that is not in the configuration prints its
    header and stops with the [KeyError] of [_build_gitingest_command]
    (exit code 1), before any command runs: the output directory and the
    configuration are unchanged.  ([_get_exclusions] alone would raise
    [ValueError].) *)
Theorem ingest_unknown_repo (E : env) (repo_name profile : string) (version : option string) (w : world) :
  assoc repo_name (repositories (w_config w)) = None ->
  ingest E repo_name profile version w = (Raise KeyError, printed w [ingest_header repo_name profile])
  /\ exit_code (fst (ingest E repo_name profile version w)) = 1
  /\ _get_exclusions repo_name profile w = (Raise ValueError, w).
Proof.
  intros Hn.
  assert (H : ingest E repo_name profile version w = (Raise KeyError, printed w [ingest_header repo_name profile])).
  { unfold ingest. erewrite bind_ok; [|apply print_printed].
    unfold bind at 1, get.
    unfold bind at 1. unfold _build_gitingest_command, bind at 1, get. simpl. rewrite Hn. reflexivity. }
  split; [exact H|]. split; [by rewrite H|].
  unfold _get_exclusions, bind, get. by rewrite Hn.
Qed.

Lemma ingest_unknown_repo_witness :
  fst (ingest Scenario.stub_env "nope" "standard" None (Scenario.start ∅ "t")) = Raise KeyError.
Proof.
  destruct (ingest_unknown_repo Scenario.stub_env "nope" "standard" None (Scenario.start ∅ "t") eq_refl) as [H _].
  by rewrite H.
Defined.

End StateProps.

Module IntTokenProps.
Import Manager Defs Cli Views Props ListReposProps.

Lemma digit_facts (d : Z) : 0 <= d < 10 ->
  Py.is_digit (Py.digit d) = true /\ (nat_of_ascii (Py.digit d) - 48)%nat = Z.to_nat d
  /\ Py.is_space (Py.digit d) = false.
Proof.
  intros Hd. unfold Py.is_digit, Py.is_space, Py.digit.
  rewrite nat_ascii_embedding by lia.
  repeat split.
  - apply andb_true_intro; split; apply Nat.leb_le; lia.
  - lia.
  - assert (H48 : (48 <= 48 + Z.to_nat d <= 57)%nat) by lia.
    destruct (Nat.leb_spec 9 (48 + Z.to_nat d)), (Nat.leb_spec (48 + Z.to_nat d) 13),
      (Nat.leb_spec 28 (48 + Z.to_nat d)), (Nat.leb_spec (48 + Z.to_nat d) 32),
      (Nat.eqb_spec (48 + Z.to_nat d) 133), (Nat.eqb_spec (48 + Z.to_nat d) 160); simpl; lia.
Qed.

(** [dec_aux] puts the decimal digits of [n] before [acc]. *)
Lemma dec_aux_value (f : nat) : forall (n : Z) (acc : string) (a : Z) (p : bool),
  0 <= n < 10 ^ Z.of_nat (S f) ->
  exists k, 0 <= k /\ Py.digits_val (Py.dec_aux (S f) n acc) a p = Py.digits_val acc (a * 10 ^ k + n) true.
Proof.
  induction f as [|f IH]; intros n acc a p Hn.
  - exists 1. split; [lia|].
    change (Py.dec_aux 1 n acc) with
      (let acc' := String (Py.digit (n mod 10)) acc in if n <? 10 then acc' else acc').
    cbv zeta.
    replace (n <? 10) with true by (symmetry; apply Z.ltb_lt; simpl in Hn; lia).
    destruct (digit_facts (n mod 10) ltac:(apply Z.mod_pos_bound; lia)) as (H1 & H2 & _).
    cbn [Py.digits_val]. rewrite H1, H2. rewrite Z2Nat.id by (apply Z.mod_pos_bound; lia).
    rewrite Z.mod_small by (simpl in Hn; lia). f_equal. lia.
  - change (Py.dec_aux (S (S f)) n acc) with
      (let acc' := String (Py.digit (n mod 10)) acc in
       if n <? 10 then acc' else Py.dec_aux (S f) (n / 10) acc').
    cbv zeta.
    destruct (digit_facts (n mod 10) ltac:(apply Z.mod_pos_bound; lia)) as (H1 & H2 & _).
    destruct (n <? 10) eqn:Hlt.
    + apply Z.ltb_lt in Hlt. exists 1. split; [lia|]. cbn [Py.digits_val]. rewrite H1, H2.
      rewrite Z2Nat.id by (apply Z.mod_pos_bound; lia).
      rewrite Z.mod_small by lia. f_equal. lia.
    + apply Z.ltb_ge in Hlt.
      destruct (IH (n / 10) (String (Py.digit (n mod 10)) acc) a p) as (k & Hk & Hv).
      { split; [apply Z.div_pos; lia|]. apply Z.div_lt_upper_bound; [lia|].
        rewrite Nat2Z.inj_succ, Z.pow_succ_r in Hn by lia. lia. }
      exists (k + 1). split; [lia|]. rewrite Hv. cbn [Py.digits_val]. rewrite H1, H2.
      rewrite Z2Nat.id by (apply Z.mod_pos_bound; lia).
      f_equal. rewrite Z.pow_add_r by lia. pose proof (Z.div_mod n 10 ltac:(lia)). lia.
Qed.

Lemma dec_aux_head (f : nat) : forall (n : Z) (acc : string),
  0 <= n -> exists c rest, Py.dec_aux (S f) n acc = String c rest /\ Py.is_digit c = true.
Proof.
  induction f as [|f IH]; intros n acc Hn.
  - change (Py.dec_aux 1 n acc) with
      (let acc' := String (Py.digit (n mod 10)) acc in if n <? 10 then acc' else acc').
    cbv zeta. destruct (digit_facts (n mod 10) ltac:(apply Z.mod_pos_bound; lia)) as (H1 & _).
    destruct (n <? 10); eauto.
  - change (Py.dec_aux (S (S f)) n acc) with
      (let acc' := String (Py.digit (n mod 10)) acc in
       if n <? 10 then acc' else Py.dec_aux (S f) (n / 10) acc').
    cbv zeta. destruct (digit_facts (n mod 10) ltac:(apply Z.mod_pos_bound; lia)) as (H1 & _).
    destruct (n <? 10); [eauto|]. apply IH. apply Z.div_pos; lia.
Qed.

Lemma str_nat_fuel (n : Z) : 0 <= n -> n < 10 ^ Z.of_nat (S (Z.to_nat (Z.log2 n))).
Proof.
  intros Hn. destruct (Z.eq_dec n 0) as [->|Hnz]; [simpl; lia|].
  pose proof (Z.log2_spec n ltac:(lia)) as [_ H2].
  pose proof (Z.log2_nonneg n).
  rewrite Nat2Z.inj_succ, Z2Nat.id by lia.
  enough (2 ^ Z.succ (Z.log2 n) <= 10 ^ Z.succ (Z.log2 n)) by lia.
  apply Z.pow_le_mono_l; lia.
Qed.

Lemma str_nat_digits (n : Z) : 0 <= n -> Py.digits_val (Py.str_nat n) 0 false = Some n.
Proof.
  intros Hn. unfold Py.str_nat.
  destruct (dec_aux_value _ n EmptyString 0 false (conj Hn (str_nat_fuel n Hn))) as (k & _ & ->).
  reflexivity.
Qed.

Lemma digit_count_cons (c : ascii) (s : string) :
  Py.digit_count (String c s) = ((if Py.is_digit c then 1 else 0) + Py.digit_count s)%nat.
Proof. unfold Py.digit_count. cbn [list_ascii_of_string List.filter]. destruct (Py.is_digit c); reflexivity. Qed.

(** [dec_aux] adds at most [m] digits for [n < 10 ^ m]. *)
Lemma dec_aux_digit_count (f : nat) : forall (m : nat) (n : Z) (acc : string),
  (1 <= m)%nat -> 0 <= n < 10 ^ Z.of_nat m ->
  (Py.digit_count (Py.dec_aux (S f) n acc) <= m + Py.digit_count acc)%nat.
Proof.
  induction f as [|f IH]; intros m n acc Hm Hn.
  - change (Py.dec_aux 1 n acc) with
      (let acc' := String (Py.digit (n mod 10)) acc in if n <? 10 then acc' else acc').
    cbv zeta. destruct (digit_facts (n mod 10) ltac:(apply Z.mod_pos_bound; lia)) as (H1 & _).
    destruct (n <? 10); rewrite digit_count_cons, H1; lia.
  - change (Py.dec_aux (S (S f)) n acc) with
      (let acc' := String (Py.digit (n mod 10)) acc in
       if n <? 10 then acc' else Py.dec_aux (S f) (n / 10) acc').
    cbv zeta. destruct (digit_facts (n mod 10) ltac:(apply Z.mod_pos_bound; lia)) as (H1 & _).
    destruct (n <? 10) eqn:Hlt.
    + rewrite digit_count_cons, H1; lia.
    + apply Z.ltb_ge in Hlt. destruct m as [|[|m']]; [lia| simpl in Hn; lia |].
      assert (Hb : 0 <= n / 10 < 10 ^ Z.of_nat (S m')).
      { split; [apply Z.div_pos; lia|]. apply Z.div_lt_upper_bound; [lia|].
        rewrite (Nat2Z.inj_succ (S m')), Z.pow_succ_r in Hn by lia. lia. }
      pose proof (IH (S m') (n / 10) (String (Py.digit (n mod 10)) acc) ltac:(lia) Hb) as H.
      rewrite digit_count_cons, H1 in H. lia.
Qed.

Lemma str_nat_digit_count (m : nat) (n : Z) :
  (1 <= m)%nat -> 0 <= n < 10 ^ Z.of_nat m -> (Py.digit_count (Py.str_nat n) <= m)%nat.
Proof.
  intros Hm Hn. unfold Py.str_nat.
  pose proof (dec_aux_digit_count (Z.to_nat (Z.log2 n)) m n EmptyString Hm Hn) as H.
  change (Py.digit_count EmptyString) with 0%nat in H. lia.
Qed.

Lemma int_of_token_unfold (s : string) :
  (Py.digit_count s <= Py.max_str_digits)%nat ->
  Py.int_of_token s = match s with
                      | String "-"%char s' => option_map Z.opp (Py.digits_val s' 0 false)
                      | String "+"%char s' => Py.digits_val s' 0 false
                      | _ => Py.digits_val s 0 false
                      end.
Proof. intros H. unfold Py.int_of_token. apply Nat.ltb_ge in H. rewrite H. reflexivity. Qed.

Lemma int_of_token_digit (c : ascii) (s : string) :
  Py.is_digit c = true -> (Py.digit_count (String c s) <= Py.max_str_digits)%nat ->
  Py.int_of_token (String c s) = Py.digits_val (String c s) 0 false.
Proof.
  intros Hc Hd. rewrite int_of_token_unfold by exact Hd.
  destruct c as [[] [] [] [] [] [] [] []]; try discriminate; reflexivity.
Qed.

Lemma str_nat_small (n : Z) : 0 <= n < 10 ^ 4300 -> (Py.digit_count (Py.str_nat n) <= Py.max_str_digits)%nat.
Proof.
  intros Hn. change Py.max_str_digits with 4300%nat. apply str_nat_digit_count; [lia|].
  change (Z.of_nat 4300) with 4300. exact Hn.
Qed.

Lemma int_of_token_str_int_core (z : Z) :
  Z.abs z < 10 ^ 4300 -> Py.int_of_token (Py.str_int z) = Some z.
Proof.
  intros Hb. unfold Py.str_int. destruct (z <? 0) eqn:Hz.
  - apply Z.ltb_lt in Hz. change ("-" ++ Py.str_nat (- z)) with (String "-" (Py.str_nat (- z))).
    rewrite int_of_token_unfold.
    + cbv beta iota. rewrite str_nat_digits by lia. cbn [option_map]. f_equal. lia.
    + rewrite digit_count_cons. change (Py.is_digit "-"%char) with false. cbv beta iota.
      rewrite Nat.add_0_l. apply str_nat_small. lia.
  - apply Z.ltb_ge in Hz. unfold Py.str_nat at 1.
    destruct (dec_aux_head (Z.to_nat (Z.log2 z)) z EmptyString Hz) as (c & rest & He & Hc).
    rewrite He, int_of_token_digit by (exact Hc || (rewrite <- He; apply str_nat_small; lia)).
    rewrite <- He. fold (Py.str_nat z).
    by apply str_nat_digits.
Qed.

(** [int(str(z)) == z] for an integer of at most 4300 digits (below
    CPython's default [int_max_str_digits], so neither [str] nor [int]
    raises): the token [str] prints parses back to the integer. *)
Theorem int_of_token_str_int (z : Z) : Z.abs z < 10 ^ 4300 -> Py.int_of_token (Py.str_int z) = Some z.
Proof. exact (int_of_token_str_int_core z). Qed.

Lemma int_of_token_str_int_witness :
  Z.abs (-1000) < 10 ^ 4300 /\ Py.int_of_token (Py.str_int (-1000)) = Some (-1000).
Proof.
  assert (H : Z.abs (-1000) < 10 ^ 4300) by lia.
  split; [exact H | exact (int_of_token_str_int (-1000) H)].
Defined.

End IntTokenProps.

Module SplitProps.
Import Manager Defs Cli Views Props ListReposProps IntTokenProps.

Lemma string_of_list_ascii_app (l1 l2 : list ascii) :
  string_of_list_ascii (l1 ++ l2) = string_of_list_ascii l1 ++ string_of_list_ascii l2.
Proof. induction l1 as [|c l1 IH]; [reflexivity|exact (f_equal (String c) IH)]. Qed.

Lemma rev_string_app (a b : string) : Py.rev_string (a ++ b) = Py.rev_string b ++ Py.rev_string a.
Proof.
  unfold Py.rev_string. rewrite list_ascii_of_string_app, rev_app_distr.
  apply string_of_list_ascii_app.
Qed.

Lemma rev_string_involutive (s : string) : Py.rev_string (Py.rev_string s) = s.
Proof.
  unfold Py.rev_string. rewrite list_ascii_of_string_of_list_ascii, rev_involutive.
  apply string_of_list_ascii_of_string.
Qed.

Lemma rev_string_cons (c : ascii) (s : string) : Py.rev_string (String c s) = Py.rev_string s ++ String c EmptyString.
Proof. apply (rev_string_app (String c EmptyString) s). Qed.

Lemma app_empty (s : string) : s ++ EmptyString = s.
Proof. induction s as [|c s IH]; [reflexivity|exact (f_equal (String c) IH)]. Qed.

Lemma rev_string_empty (s : string) : Py.rev_string s = EmptyString -> s = EmptyString.
Proof.
  intros H. rewrite <- (rev_string_involutive s), H. reflexivity.
Qed.

Lemma spaces_app (a b : string) : spaces a -> spaces b -> spaces (a ++ b).
Proof. unfold spaces. rewrite list_ascii_of_string_app. apply Forall_app_2. Qed.

Lemma spaces_rev (t : string) : spaces t -> spaces (Py.rev_string t).
Proof.
  unfold spaces, Py.rev_string. rewrite list_ascii_of_string_of_list_ascii.
  intros H. by apply Forall_rev.
Qed.

Lemma split_ws_aux_lstrip (x : string) : Py.split_ws_aux (Py.lstrip x) EmptyString = Py.split_ws_aux x EmptyString.
Proof.
  induction x as [|c x IH]; [reflexivity|].
  change (Py.lstrip (String c x)) with (if Py.is_space c then Py.lstrip x else String c x).
  destruct (Py.is_space c) eqn:Hc; [|reflexivity]. rewrite IH. simpl. rewrite Hc. reflexivity.
Qed.

Lemma split_ws_aux_spaces (t : string) : spaces t -> Py.split_ws_aux t EmptyString = [].
Proof.
  induction t as [|c t IH]; intros H; [reflexivity|].
  inversion H as [|? ? Hc Ht]; subst. simpl. rewrite Hc. exact (IH Ht).
Qed.

Lemma split_ws_aux_trail (t : string) : spaces t ->
  forall y cur, Py.split_ws_aux (y ++ t) cur = Py.split_ws_aux y cur.
Proof.
  intros Ht y. induction y as [|c y IH]; intros cur.
  - simpl. destruct t as [|c t]; [reflexivity|].
    inversion Ht as [|? ? Hc Ht']; subst. simpl. rewrite Hc.
    rewrite (split_ws_aux_spaces t Ht'). destruct (String.eqb cur EmptyString); reflexivity.
  - simpl. destruct (Py.is_space c); rewrite IH; reflexivity.
Qed.

Lemma lstrip_prefix (z : string) : exists t, spaces t /\ z = t ++ Py.lstrip z.
Proof.
  induction z as [|c z IH]; [exists EmptyString; split; [constructor|reflexivity]|].
  simpl. destruct (Py.is_space c) eqn:Hc.
  - destruct IH as (t & Ht & He). exists (String c t). split; [constructor; assumption|].
    change (String c z = String c (t ++ Py.lstrip z)). f_equal. exact He.
  - exists EmptyString. split; [constructor|reflexivity].
Qed.

(** [s.strip().split() == s.split()] *)
Lemma split_ws_strip (x : string) : Py.split_ws (Py.strip x) = Py.split_ws x.
Proof.
  unfold Py.split_ws, Py.strip.
  set (y := Py.lstrip x).
  destruct (lstrip_prefix (Py.rev_string y)) as (t & Ht & He).
  assert (Hy : y = Py.rev_string (Py.lstrip (Py.rev_string y)) ++ Py.rev_string t).
  { rewrite <- (rev_string_involutive y) at 1. rewrite He at 1. apply rev_string_app. }
  rewrite <- (split_ws_aux_trail (Py.rev_string t) (spaces_rev t Ht)). rewrite <- Hy.
  apply split_ws_aux_lstrip.
Qed.

Lemma split_ws_aux_lead (t x : string) : spaces t -> Py.split_ws_aux (t ++ x) EmptyString = Py.split_ws_aux x EmptyString.
Proof.
  induction t as [|c t IH]; intros H; [reflexivity|].
  inversion H as [|? ? Hc Ht]; subst. simpl. rewrite Hc. exact (IH Ht).
Qed.

Lemma split_ws_aux_solid (s : string) : solid s ->
  forall rest cur, Py.split_ws_aux (s ++ rest) cur = Py.split_ws_aux rest (Py.rev_string s ++ cur).
Proof.
  induction s as [|c s IH]; intros H rest cur; [reflexivity|].
  inversion H as [|? ? Hc Hs]; subst. simpl. rewrite Hc, IH by exact Hs.
  rewrite rev_string_cons, <- string_app_assoc. reflexivity.
Qed.

Lemma digit_not_space (c : ascii) : Py.is_digit c = true -> Py.is_space c = false.
Proof.
  unfold Py.is_digit, Py.is_space. intros H. apply andb_prop in H as [H1 H2].
  apply Nat.leb_le in H1, H2. set (n := nat_of_ascii c) in *.
  destruct (Nat.leb_spec 9 n), (Nat.leb_spec n 13), (Nat.leb_spec 28 n), (Nat.leb_spec n 32),
    (Nat.eqb_spec n 133), (Nat.eqb_spec n 160); simpl; lia.
Qed.

Lemma dec_aux_solid (f : nat) : forall (n : Z) (acc : string),
  0 <= n -> solid acc -> solid (Py.dec_aux f n acc).
Proof.
  induction f as [|f IH]; intros n acc Hn Ha; [exact Ha|].
  change (Py.dec_aux (S f) n acc) with
    (let acc' := String (Py.digit (n mod 10)) acc in
     if n <? 10 then acc' else Py.dec_aux f (n / 10) acc').
  cbv zeta.
  destruct (digit_facts (n mod 10) ltac:(apply Z.mod_pos_bound; lia)) as (_ & _ & H3).
  assert (solid (String (Py.digit (n mod 10)) acc)) by (constructor; assumption).
  destruct (n <? 10); [assumption|]. apply IH; [apply Z.div_pos; lia | assumption].
Qed.

Lemma str_int_solid (z : Z) : solid (Py.str_int z) /\ Py.str_int z <> EmptyString.
Proof.
  unfold Py.str_int. destruct (z <? 0) eqn:Hz.
  - split; [|discriminate]. constructor; [reflexivity|].
    apply dec_aux_solid; [apply Z.ltb_lt in Hz; lia | constructor].
  - apply Z.ltb_ge in Hz. split.
    + apply dec_aux_solid; [lia | constructor].
    + unfold Py.str_nat. destruct (dec_aux_head (Z.to_nat (Z.log2 z)) z EmptyString Hz) as (c & r & -> & _).
      discriminate.
Qed.

(** The whitespace-separated tokens of [lead ++ str(n) ++ rest] start
    with [str(n)] when [lead] is whitespace and [rest] is empty or starts
    with whitespace. *)
Lemma split_ws_str_int (lead rest : string) (n : Z) :
  spaces lead ->
  (rest = EmptyString \/ exists c r', rest = String c r' /\ Py.is_space c = true) ->
  exists more, Py.split_ws (Py.strip (lead ++ Py.str_int n ++ rest)) = Py.str_int n :: more.
Proof.
  intros Hl Hr. rewrite split_ws_strip. unfold Py.split_ws.
  rewrite split_ws_aux_lead by exact Hl.
  destruct (str_int_solid n) as [Hs Hne].
  rewrite split_ws_aux_solid by exact Hs. rewrite app_empty.
  destruct Hr as [->|(c & r' & -> & Hc)].
  - exists []. simpl.
    destruct (String.eqb (Py.rev_string (Py.str_int n)) EmptyString) eqn:E0.
    + apply String.eqb_eq in E0. apply rev_string_empty in E0. congruence.
    + rewrite rev_string_involutive. reflexivity.
  - eexists. simpl. rewrite Hc.
    destruct (String.eqb (Py.rev_string (Py.str_int n)) EmptyString) eqn:E0.
    + apply String.eqb_eq in E0. apply rev_string_empty in E0. congruence.
    + rewrite rev_string_involutive. reflexivity.
Qed.

End SplitProps.

Module CountTokensProps.
Import Manager Defs Cli Views Props ListReposProps IntTokenProps SplitProps.

(** [_count_tokens] on a counter that succeeds and prints the count
    first ([str(n)], possibly after whitespace and before a blank and
    more output), with [n] of at most 4300 digits so that [int()]
    accepts it: the count is [n] and the character count is the exact
    length of the file's text as read in text mode (line ends
    translated); nothing is printed or changed. *)
Theorem count_tokens_counter_output (E : env) (name : string) (w : world)
    (lead rest err s : string) (n t : Z) :
  Z.abs n < 10 ^ 4300 ->
  w_tc_exists w = true ->
  run_tc E [tc_path E w; path_join (out_dir w) name] (w_odir w) = PExit 0 (lead ++ Py.str_int n ++ rest) err ->
  spaces lead ->
  (rest = EmptyString \/ exists c r', rest = String c r' /\ Py.is_space c = true) ->
  w_odir w !! name = Some (mkFile (Text s) t) ->
  _count_tokens E name w = (Ok (n, Z.of_nat (String.length (Py.univ_nl s))), w).
Proof.
  intros Hb Htc Hrun Hl Hr Hf.
  destruct (split_ws_str_int lead rest n Hl Hr) as (more & Hm).
  unfold _count_tokens. cbv [bind get]. rewrite Htc. cbn [negb].
  unfold catch_cpe. cbv [bind lift]. rewrite Hrun. cbn [run_checked ret fst].
  rewrite Hm, int_of_token_str_int_core by exact Hb. cbv [ret read_text bind get]. rewrite Hf. reflexivity.
Qed.

End CountTokensProps.

Module GithubProps.
Import Manager Defs Cli Views Props ListReposProps IntTokenProps SplitProps.

Lemma split_on_aux_plain (a : string) : no_slash a ->
  forall r cur, Py.split_on_aux "/"%char (a ++ r) cur = Py.split_on_aux "/"%char r (Py.rev_string a ++ cur).
Proof.
  induction a as [|c a IH]; intros H r cur; [reflexivity|].
  inversion H as [|? ? Hc Ha]; subst. simpl. rewrite Hc, IH by exact Ha.
  rewrite rev_string_cons, <- string_app_assoc. reflexivity.
Qed.

Lemma split_on_owner_repo (owner repo : string) :
  no_slash owner -> no_slash repo ->
  Py.split_on_aux "/"%char (owner ++ "/" ++ repo) EmptyString = [owner; repo].
Proof.
  intros Ho Hr. rewrite split_on_aux_plain by exact Ho. simpl.
  rewrite <- (app_empty repo) at 1. rewrite (split_on_aux_plain repo Hr EmptyString). simpl.
  rewrite !app_empty, !rev_string_involutive. reflexivity.
Qed.

Lemma substring_prefix (x y : string) : substring 0 (String.length x) (x ++ y) = x.
Proof.
  induction x as [|c x IH]; simpl; [by destruct y|]. by rewrite IH.
Qed.

Lemma str_length_app (x y : string) : String.length (x ++ y) = (String.length x + String.length y)%nat.
Proof. induction x as [|c x IH]; simpl; [reflexivity|]. by rewrite IH. Qed.

Lemma drop_end_git (x : string) : Py.drop_end 4 (x ++ ".git") = x.
Proof.
  unfold Py.drop_end. rewrite str_length_app. simpl.
  replace (String.length x + 4 - 4)%nat with (String.length x) by lia.
  apply substring_prefix.
Qed.

Lemma endswith_git (x : string) : Py.endswith ".git" (x ++ ".git") = true.
Proof.
  unfold Py.endswith, Py.rev_string. rewrite list_ascii_of_string_app. simpl.
  rewrite rev_app_distr. reflexivity.
Qed.

Lemma github_version_api (E : env) (repo_path : string) (w : world) (out err owner repo sfx : string) :
  run_git E ["git"; "-C"; repo_path; "config"; "--get"; "remote.origin.url"] = PExit 0 out err ->
  Py.strip out = "https://github.com/" ++ owner ++ "/" ++ repo ++ sfx ->
  no_slash owner -> no_slash repo ->
  (sfx = ".git" \/ (sfx = EmptyString /\ Py.endswith ".git" ("https://github.com/" ++ owner ++ "/" ++ repo) = false)) ->
  _get_github_version E repo_path w =
  catch_cpe (catch_exception (fetch_release E ("https://api.github.com/repos/" ++ owner ++ "/" ++ repo ++ "/releases/latest"))
               (fun e => print ("Warning: Could not fetch GitHub release: " ++ exn_str e) ;; ret None))
            (fun _ _ => ret None) w.
Proof.
  intros Hgit Hstrip Ho Hr Hsfx.
  set (base := "https://github.com/" ++ owner ++ "/" ++ repo).
  assert (Hurl : "https://github.com/" ++ owner ++ "/" ++ repo ++ sfx = base ++ sfx)
    by (unfold base; rewrite <- !string_app_assoc; reflexivity).
  assert (Hc : Py.contains "github.com" (base ++ sfx) = true) by reflexivity.
  assert (Hx : (if Py.endswith ".git" (base ++ sfx) then Py.drop_end 4 (base ++ sfx) else base ++ sfx) = base).
  { destruct Hsfx as [->|[-> He]].
    - rewrite endswith_git. apply drop_end_git.
    - rewrite app_empty. unfold base. rewrite He. reflexivity. }
  assert (Hsp : Py.split_on "/"%char base = ["https:"; EmptyString; "github.com"; owner; repo]).
  { unfold Py.split_on, base. simpl.
    change (Py.split_on_aux "/"%char (EmptyString ++ owner ++ "/" ++ repo) EmptyString)
      with (Py.split_on_aux "/"%char (owner ++ "/" ++ repo) EmptyString).
    rewrite split_on_owner_repo by assumption. reflexivity. }
  unfold _get_github_version. unfold catch_cpe at 1. cbv [bind lift]. rewrite Hgit.
  cbn [run_checked ret fst]. rewrite Hstrip, Hurl, Hc, Hx, Hsp. reflexivity.
Qed.

Lemma fetch_release_shape (E : env) (u : string) (w : world) :
  (exists v, fetch_release E u w = (Ok v, w)) \/ (exists e, fetch_release E u w = (Raise e, w) /\ forall c, e <> SystemExit c).
Proof.
  unfold fetch_release.
  destruct (http_get E u) as [|st [b|]].
  - right. eexists. split; [reflexivity|discriminate].
  - destruct (st =? 200); [|left; eexists; reflexivity].
    destruct b as [| | | | |d]; try (right; eexists; split; [reflexivity|discriminate]).
    destruct (match assoc "tag_name" d with Some t => t | None => JStr EmptyString end);
      try (right; eexists; split; [reflexivity|discriminate]).
    left. eexists. reflexivity.
  - destruct (st =? 200); [|left; eexists; reflexivity].
    right. eexists. split; [reflexivity|discriminate].
Qed.

(** [_get_github_version] on a repository whose origin is
    [https://github.com/<owner>/<repo>] (with or without [.git], owner and
    repo without [/]): it queries
    [https://api.github.com/repos/<owner>/<repo>/releases/latest] and never
    raises.  A 200 answer with a string [tag_name] gives the tag without
    its leading [v]; a 200 answer without [tag_name] gives the empty tag;
    any other status gives [None]; these print nothing.  A request that
    raises gives [None] after one warning line carrying the exception's
    text [str(e)]. *)
Theorem github_version_release (E : env) (repo_path : string) (w : world) (out err owner repo sfx : string) :
  run_git E ["git"; "-C"; repo_path; "config"; "--get"; "remote.origin.url"] = PExit 0 out err ->
  Py.strip out = "https://github.com/" ++ owner ++ "/" ++ repo ++ sfx ->
  no_slash owner -> no_slash repo ->
  (sfx = ".git" \/ (sfx = EmptyString /\ Py.endswith ".git" ("https://github.com/" ++ owner ++ "/" ++ repo) = false)) ->
  let api := "https://api.github.com/repos/" ++ owner ++ "/" ++ repo ++ "/releases/latest" in
  let r := _get_github_version E repo_path w in
  (exists v, fst r = Ok v)
  /\ (forall d t, http_get E api = HttpResp 200 (inl (JObj d)) -> assoc "tag_name" d = Some (JStr t) ->
      r = (Ok (Some (if Py.startswith "v" t then Py.drop 1 t else t)), w))
  /\ (forall d, http_get E api = HttpResp 200 (inl (JObj d)) -> assoc "tag_name" d = None ->
      r = (Ok (Some EmptyString), w))
  /\ (forall st b, st <> 200 -> http_get E api = HttpResp st b -> r = (Ok None, w))
  /\ (forall m, http_get E api = HttpRaise m ->
      r = (Ok None, printed w ["Warning: Could not fetch GitHub release: " ++ m])).
Proof.
  intros Hgit Hstrip Ho Hr Hsfx api r.
  assert (Hr' : r = catch_cpe (catch_exception (fetch_release E api)
               (fun e => print ("Warning: Could not fetch GitHub release: " ++ exn_str e) ;; ret None))
            (fun _ _ => ret None) w) by (apply (github_version_api E repo_path w out err owner repo sfx); assumption).
  rewrite Hr'. clear Hr'.
  split; [|split; [|split; [|split]]].
  - destruct (fetch_release_shape E api w) as [[v Hv]|[e [He Hne]]].
    + exists v. unfold catch_cpe, catch_exception. by rewrite Hv.
    + exists None. unfold catch_cpe, catch_exception. rewrite He.
      destruct e; try reflexivity. exfalso. exact (Hne code eq_refl).
  - intros d t Hh Ht. unfold catch_cpe, catch_exception, fetch_release. rewrite Hh. cbn.
    rewrite Ht. reflexivity.
  - intros d Hh Ht. unfold catch_cpe, catch_exception, fetch_release. rewrite Hh. cbn.
    rewrite Ht. reflexivity.
  - intros st b Hst Hh. unfold catch_cpe, catch_exception, fetch_release. rewrite Hh.
    apply Z.eqb_neq in Hst. rewrite Hst. reflexivity.
  - intros m Hh. unfold catch_cpe, catch_exception, fetch_release. rewrite Hh. reflexivity.
Qed.

End GithubProps.

Module FrameProps.
Import Manager Defs Cli Views Props ListReposProps StateProps SplitProps.

Lemma frame_refl (w : world) : frame w w.
Proof. repeat split. Qed.

Lemma frame_trans (w1 w2 w3 : world) : frame w1 w2 -> frame w2 w3 -> frame w1 w3.
Proof. unfold frame. intuition congruence. Qed.

Lemma frame_printed (w : world) (l : list string) : frame w (printed w l).
Proof. repeat split. Qed.

Lemma frames_ret {A} (a : A) : frames (ret a).
Proof. intros w. apply frame_refl. Qed.
Lemma frames_raise {A} (e : exn) : frames (A := A) (raise e).
Proof. intros w. apply frame_refl. Qed.
Lemma frames_get : frames get.
Proof. intros w. apply frame_refl. Qed.
Lemma frames_print (s : string) : frames (print s).
Proof. intros w. apply frame_printed. Qed.
Lemma frames_lift {A} (r : res A) : frames (lift r).
Proof. destruct r; intros w; apply frame_refl. Qed.
Lemma frames_bind {A B} (m : M A) (k : A -> M B) : frames m -> (forall a, frames (k a)) -> frames (bind m k).
Proof.
  intros Hm Hk w. unfold bind. specialize (Hm w). destruct (m w) as [[a|e] w1]; [|exact Hm].
  exact (frame_trans _ _ _ Hm (Hk a w1)).
Qed.
Lemma frames_catch_cpe {A} (m : M A) (h : Z -> string -> M A) :
  frames m -> (forall c e, frames (h c e)) -> frames (catch_cpe m h).
Proof.
  intros Hm Hh w. unfold catch_cpe. specialize (Hm w).
  destruct (m w) as [[a|[] ] w1]; try exact Hm. exact (frame_trans _ _ _ Hm (Hh _ _ w1)).
Qed.
Lemma frames_catch_exception {A} (m : M A) (h : exn -> M A) :
  frames m -> (forall e, frames (h e)) -> frames (catch_exception m h).
Proof.
  intros Hm Hh w. unfold catch_exception. specialize (Hm w).
  destruct (m w) as [[a|[] ] w1]; try exact Hm; exact (frame_trans _ _ _ Hm (Hh _ w1)).
Qed.

Ltac frames_tac :=
  repeat first
    [ apply frames_bind; [|intros]
    | apply frames_ret | apply frames_raise | apply frames_get | apply frames_print | apply frames_lift
    | apply frames_catch_cpe; [|intros]
    | apply frames_catch_exception; [|intros]
    | match goal with |- frames (match ?x with _ => _ end) => destruct x end
    | match goal with |- frames (if ?x then _ else _) => destruct x end ].

Lemma read_text_frames (n : string) : frames (read_text n).
Proof. unfold read_text. frames_tac. Qed.

Lemma count_tokens_frames (E : env) (n : string) : frames (_count_tokens E n).
Proof. unfold _count_tokens, char_fallback, read_text. frames_tac. Qed.

Lemma github_version_frames (E : env) (p : string) : frames (_get_github_version E p).
Proof. unfold _get_github_version, fetch_release. frames_tac. Qed.

Lemma file_hash_frames (E : env) (n : string) : frames (_get_file_hash E n).
Proof. unfold _get_file_hash. frames_tac. Qed.

End FrameProps.

Module IngestStepProps.
Import Manager Defs Cli Views Props ListReposProps StateProps SplitProps FrameProps.

Lemma bind_inv {A B} (m : M A) (k : A -> M B) (w w' : world) (b : B) :
  bind m k w = (Ok b, w') -> exists a w1, m w = (Ok a, w1) /\ k a w1 = (Ok b, w').
Proof. unfold bind. destruct (m w) as [[a|e] w1]; [eauto|discriminate]. Qed.

Ltac inv_bind H a w1 Hm :=
  let H' := fresh in
  destruct (bind_inv _ _ _ _ _ H) as (a & w1 & Hm & H'); clear H; rename H' into H; cbv beta in H.

Lemma frames_ok {A} (m : M A) (w w1 : world) (a : A) : frames m -> m w = (Ok a, w1) -> frame w w1.
Proof. intros Hf Hm. specialize (Hf w). by rewrite Hm in Hf. Qed.

Lemma catch_cpe_ok {A} (m : M A) (h : Z -> string -> M A) (w w' : world) (a : A) :
  (forall c e w0, exists e' w1, h c e w0 = (Raise e', w1)) ->
  catch_cpe m h w = (Ok a, w') -> m w = (Ok a, w').
Proof.
  intros Hh. unfold catch_cpe. destruct (m w) as [[x|[] ] w1]; try (intros H; exact H).
  intros H. destruct (Hh returncode stderr w1) as (e' & w2 & He). congruence.
Qed.

Lemma ingest_handler_raises (cmd : list string) (t : string) (c : Z) (err : string) (w : world) :
  exists e' w1,
    (print ("❌ Error running gitingest: " ++ cpe_str cmd c) ;;
     print ("   stderr: " ++ err) ;;
     let! ex := exists_file t in
     (if ex then unlink t else ret tt) ;;
     raise (A := unit) (SystemExit 1)) w = (Raise e', w1).
Proof.
  do 3 (erewrite bind_ok; [|reflexivity]).
  match goal with |- context [bind (if ?b then _ else _) _] => destruct b end.
  - unfold bind. destruct (unlink t _) as [[[]|e] w3]; eauto.
  - unfold bind, ret. eauto.
Qed.

Lemma run_ingestion_ok (E : env) (cmd : list string) (t : string) (w w1 : world) (x : string * string) :
  run_ingestion E cmd t w = (Ok x, w1) ->
  w_config w1 = w_config w /\ w_config_file w1 = w_config_file w /\ w_now w1 = w_now w
  /\ w_clock w1 = w_clock w /\ w_tc_exists w1 = w_tc_exists w
  /\ forall n, n <> t -> w_odir w1 !! n = w_odir w !! n.
Proof.
  unfold run_ingestion. destruct (run_gitingest E cmd) as [p wr].
  destruct p as [|c o e]; [discriminate|].
  destruct wr as [cnt|].
  - intros H. inv_bind H u w2 Hw. unfold write_file, bind, get, set_odir in Hw. injection Hw as <- <-.
    unfold lift in H. destruct (run_checked _); [|discriminate]. injection H as _ <-.
    simpl. repeat split. intros n Hn. by rewrite lookup_insert_ne by congruence.
  - intros H. inv_bind H u w2 Hw. injection Hw as <- <-.
    unfold lift in H. destruct (run_checked _); [|discriminate]. injection H as _ <-.
    repeat split.
Qed.

Lemma rename_ok (s d : string) (w w1 : world) :
  rename s d w = (Ok tt, w1) ->
  exists f, w_odir w !! s = Some f /\ w_odir w1 = <[d := f]> (delete s (w_odir w))
    /\ w_config w1 = w_config w /\ w_config_file w1 = w_config_file w
    /\ w_now w1 = w_now w /\ w_clock w1 = w_clock w.
Proof.
  unfold rename, bind, get. destruct (w_odir w !! s) as [f|]; [|discriminate].
  intros H. injection H as <-. exists f. repeat split.
Qed.

Lemma set_metadata_ok (r : string) (m : ingest_metadata) (w w1 : world) :
  set_metadata r m w = (Ok tt, w1) ->
  exists rc, assoc r (repositories (w_config w)) = Some rc
    /\ assoc r (repositories (w_config w1)) = Some (mkRepo (source rc) (description rc) (exclusions rc) (Some m))
    /\ (forall r', r' <> r -> assoc r' (repositories (w_config w1)) = assoc r' (repositories (w_config w)))
    /\ w_config_file w1 = w_config_file w /\ w_odir w1 = w_odir w
    /\ w_now w1 = w_now w /\ w_clock w1 = w_clock w.
Proof.
  unfold set_metadata, bind, get. destruct (assoc r (repositories (w_config w))) as [rc|] eqn:Ha; [|discriminate].
  intros H. injection H as <-. exists rc. simpl. repeat split.
  - apply assoc_set_eq.
  - intros r' Hr'. by apply assoc_set_ne.
Qed.

Lemma save_log_ok (r p fn : string) (m : ingest_metadata) (w w1 : world) :
  _save_ingestion_log r p fn m w = (Ok tt, w1) ->
  exists l, (w_odir w !! log_name = None /\ l = [] \/ exists t, w_odir w !! log_name = Some (mkFile (Json (JArr l)) t))
    /\ w_odir w1 = <[log_name := mkFile (Json (JArr (l ++ [log_entry r p fn m])%list)) (w_clock w)]> (w_odir w)
    /\ w_config w1 = w_config w /\ w_config_file w1 = w_config_file w.
Proof.
  unfold _save_ingestion_log, bind, get.
  destruct (w_odir w !! log_name) as [[c t]|] eqn:Hl.
  - destruct c as [s|b|v]; try discriminate. simpl.
    destruct v; try discriminate. intros H. injection H as <-.
    exists l. repeat split. right. exists t. reflexivity.
  - intros H. injection H as <-. exists []. repeat split. left. auto.
Qed.

(** The value [_get_github_version] returns depends only on the
    environment, not on the state it runs in. *)
Lemma github_version_value (E : env) (p : string) (w1 w2 : world) :
  fst (_get_github_version E p w1) = fst (_get_github_version E p w2).
Proof.
  unfold _get_github_version, catch_cpe, catch_exception, fetch_release, bind, lift, ret, raise, print.
  destruct (run_checked _) as [[o e]|ex]; [|destruct ex; reflexivity].
  destruct (Py.contains _ _); [|reflexivity].
  destruct (Py.last_two _) as [|owner [|repo rest]]; try reflexivity.
  destruct (http_get E _) as [m|st b]; [reflexivity|].
  destruct (st =? 200); [|reflexivity].
  destruct b as [[]|m]; try reflexivity.
  destruct (match assoc "tag_name" _ with Some t => t | None => JStr EmptyString end); reflexivity.
Qed.

Lemma final_name_md (r v h : string) : Py.endswith ".md" (r ++ "_" ++ v ++ "_" ++ h ++ ".md") = true.
Proof. rewrite !string_app_assoc. apply endswith_md. Qed.

Lemma final_name_not_log (r v h : string) : r ++ "_" ++ v ++ "_" ++ h ++ ".md" <> log_name.
Proof.
  intros H. pose proof (final_name_md r v h) as Hm. rewrite H, log_name_not_md in Hm. discriminate.
Qed.

End IngestStepProps.

Module IngestProps.
Import Manager Defs Cli Views Props ListReposProps StateProps SplitProps FrameProps IngestStepProps.

(** A run of [ingest] that returns normally has renamed the temporary
    artifact to [<repo>_<version>_<tokens>.md], where the version is the
    one given (when non-empty) or the resolved one (never empty) and the
    token part is [_format_token_count] of the recorded count; without
    a version (or with an empty one) the resolved version is the value
    [_get_github_version] returns for the repository's source path, or
    [latest] when that is [None] or empty.  The
    repository's metadata block in memory now holds that file, the
    profile and the run's timestamp; the other repositories are
    unchanged and the configuration file holds the configuration in
    memory.  The temporary name is gone, the log holds its former list
    (empty when there was no log) with one entry for the run appended,
    and no other file of the output directory changed. *)
Theorem ingest_success (E : env) (repo_name profile : string) (version : option string) (w w' : world) :
  ingest E repo_name profile version w = (Ok tt, w') ->
  let temp := temp_name repo_name (w_now w) in
  exists final ver h m rc prior,
    final = repo_name ++ "_" ++ ver ++ "_" ++ h ++ ".md"
    /\ ver <> EmptyString
    /\ (forall s, version = Some s -> s <> EmptyString -> ver = s)
    /\ (falsy version = true ->
        exists rc0 v, assoc repo_name (repositories (w_config w)) = Some rc0
          /\ fst (_get_github_version E (source rc0) w) = Ok v
          /\ ver = match v with
                   | Some s => if String.eqb s EmptyString then "latest" else s
                   | None => "latest"
                   end)
    /\ _format_token_count (token_count m) = Ok h
    /\ last_file m = final /\ meta_profile m = profile /\ last_updated m = w_now w
    /\ assoc repo_name (repositories (w_config w)) = Some rc
    /\ assoc repo_name (repositories (w_config w')) = Some (mkRepo (source rc) (description rc) (exclusions rc) (Some m))
    /\ (forall r', r' <> repo_name -> assoc r' (repositories (w_config w')) = assoc r' (repositories (w_config w)))
    /\ w_config_file w' = w_config w'
    /\ is_Some (w_odir w' !! final)
    /\ (final = temp \/ w_odir w' !! temp = None)
    /\ (w_odir w !! log_name = None /\ prior = [] \/ exists t, w_odir w !! log_name = Some (mkFile (Json (JArr prior)) t))
    /\ w_odir w' !! log_name = Some (mkFile (Json (JArr (prior ++ [log_entry repo_name profile final m])%list)) (w_clock w))
    /\ (forall n, n <> temp -> n <> final -> n <> log_name -> w_odir w' !! n = w_odir w !! n).
Proof.
  intros H temp.
  unfold ingest in H.
  inv_bind H u1 w1 H1. injection H1 as _ <-.
  inv_bind H w0 w2 H2. unfold get in H2. injection H2 as <- <-.
  inv_bind H cmd w3 H3.
  rewrite (build_command_reads_config _ _ _ w) in H3 by reflexivity.
  injection H3 as Hcmd <-.
  inv_bind H u4 w4 H4. injection H4 as _ <-.
  apply catch_cpe_ok in H; [|intros; apply ingest_handler_raises].
  unfold ingest_body in H.
  inv_bind H ro w5 H5.
  inv_bind H u6 w6 H6. injection H6 as _ <-.
  inv_bind H u7 w7 H7. injection H7 as _ <-.
  inv_bind H counts w8 H8.
  inv_bind H txt w9 H9.
  inv_bind H ver w10 H10.
  inv_bind H h w11 H11.
  inv_bind H u12 w12 H12.
  inv_bind H hh w13 H13.
  inv_bind H u14 w14 H14. destruct u14.
  inv_bind H u15 w15 H15. injection H15 as _ <-.
  inv_bind H u16 w16 H16. destruct u16.
  inv_bind H w17 w17' H17. unfold get in H17. injection H17 as <- <-.
  cbn [w_now w_config w_config_file w_odir w_tc_exists w_clock w_out] in H, H5, H8, H9, H10, H11, H12, H13, H14, H16. fold temp in H, H5, H8, H9, H10, H11, H12, H13, H14, H16.
  destruct (run_ingestion_ok _ _ _ _ _ _ H5) as (C5 & F5 & N5 & K5 & T5 & O5).
  cbn [w_now w_config w_config_file w_odir w_tc_exists w_clock w_out] in C5, F5, N5, K5, T5, O5.
  destruct (frames_ok _ _ _ _ (count_tokens_frames E temp) H8) as (C8 & F8 & O8 & T8 & N8 & K8).
  cbn [w_now w_config w_config_file w_odir w_tc_exists w_clock w_out] in C8, F8, O8, T8, N8, K8.
  destruct (frames_ok _ _ _ _ (read_text_frames temp) H9) as (C9 & F9 & O9 & T9 & N9 & K9).
  assert (Cw9 : w_config w9 = w_config w) by congruence.
  assert (Hv : frame w9 w10 /\ ver <> EmptyString /\ (forall s, version = Some s -> s <> EmptyString -> ver = s)
               /\ (falsy version = true ->
                   exists rc0 v, assoc repo_name (repositories (w_config w)) = Some rc0
                     /\ fst (_get_github_version E (source rc0) w) = Ok v
                     /\ ver = match v with
                              | Some s => if String.eqb s EmptyString then "latest" else s
                              | None => "latest"
                              end)).
  { destruct (falsy version) eqn:Hfv.
    - inv_bind H10 w9' w9'' G. unfold get in G. injection G as <- <-.
      destruct (assoc repo_name (repositories (w_config w9))) as [rc0|] eqn:Ha; [|discriminate].
      inv_bind H10 v0 w9''' G2.
      pose proof (frames_ok _ _ _ _ (github_version_frames E (source rc0)) G2) as Fg.
      unfold ret in H10. injection H10 as <- <-.
      split; [exact Fg|]. split; [|split].
      + destruct v0 as [s|]; [|discriminate]. destruct (String.eqb s EmptyString) eqn:Es; [discriminate|].
        apply String.eqb_neq in Es. exact Es.
      + intros s -> Hs. cbn in Hfv. apply String.eqb_neq in Hs. congruence.
      + intros _. exists rc0, v0. split; [rewrite <- Cw9; exact Ha|]. split; [|reflexivity].
        rewrite (github_version_value E (source rc0) w w9), G2. reflexivity.
    - unfold ret in H10. injection H10 as <- <-. split; [apply frame_refl|]. split; [|split].
      + destruct version as [s|]; [|discriminate]. cbn in Hfv. apply String.eqb_neq. exact Hfv.
      + intros s -> _. reflexivity.
      + intros Ht. congruence. }
  destruct Hv as ((C10 & F10 & O10 & T10 & N10 & K10) & Hvne & Hvs & Hvg).
  unfold lift in H11. destruct (_format_token_count counts.1) as [h'|e] eqn:Hfmt; [|discriminate].
  injection H11 as <- <-.
  destruct u12. destruct (rename_ok _ _ _ _ H12) as (f & Hf & O12 & C12 & F12 & N12 & K12).
  destruct (frames_ok _ _ _ _ (file_hash_frames E _) H13) as (C13 & F13 & O13 & T13 & N13 & K13).
  destruct (set_metadata_ok _ _ _ _ H14) as (rc & Hrc & Hrc' & Hoth & F14 & O14 & N14 & K14).
  destruct (save_log_ok _ _ _ _ _ _ H16) as (prior & Hprior & O16 & C16 & F16).
  cbn [w_now w_config w_config_file w_odir w_tc_exists w_clock w_out] in C16, F16, O16, Hprior.
  assert (Fe : frame w16 w').
  { eapply frames_ok; [|exact H]. frames_tac. }
  destruct Fe as (C' & F' & O' & T' & N' & K').
  set (final := repo_name ++ "_" ++ ver ++ "_" ++ h' ++ ".md") in *.
  assert (Hfl : final <> log_name) by apply final_name_not_log.
  assert (Htl : temp <> log_name) by apply temp_name_not_log.
  assert (Od14 : w_odir w14 = <[final := f]> (delete temp (w_odir w5))) by congruence.
  assert (Hlog : w_odir w14 !! log_name = w_odir w !! log_name).
  { rewrite Od14, lookup_insert_ne by congruence. rewrite lookup_delete_ne by congruence. by apply O5. }
  assert (Cw13 : w_config w13 = w_config w) by congruence.
  assert (Cw' : w_config w' = w_config w14) by congruence.
  assert (Kw : w_clock w14 = w_clock w) by congruence.
  lazymatch type of H16 with _save_ingestion_log _ _ _ ?mm _ = _ => set (m := mm) in * end.
  assert (Ow' : w_odir w' = <[log_name := mkFile (Json (JArr (prior ++ [log_entry repo_name profile final
                 m])%list)) (w_clock w)]>
                 (<[final := f]> (delete temp (w_odir w5)))).
  { rewrite O', O16, Od14, Kw. reflexivity. }
  exists final, ver, h', m, rc, prior.
  split; [reflexivity|]. split; [exact Hvne|]. split; [exact Hvs|]. split; [exact Hvg|]. split; [exact Hfmt|].
  split; [reflexivity|]. split; [reflexivity|]. split; [reflexivity|].
  split; [rewrite <- Cw13; exact Hrc|].
  split; [rewrite Cw'; exact Hrc'|].
  split; [intros r' Hr'; rewrite Cw', Hoth, Cw13 by exact Hr'; reflexivity|].
  split; [congruence|].
  split; [rewrite Ow', lookup_insert_ne by congruence; rewrite lookup_insert_eq; eauto|].
  split.
  { destruct (decide (final = temp)) as [Heq|Hne]; [left; exact Heq|right].
    rewrite Ow', lookup_insert_ne by congruence. rewrite lookup_insert_ne by congruence.
    apply lookup_delete_eq. }
  split; [rewrite <- Hlog; exact Hprior|].
  split; [rewrite Ow', lookup_insert_eq; reflexivity|].
  intros n Hn1 Hn2 Hn3. rewrite Ow', lookup_insert_ne by congruence. rewrite lookup_insert_ne by congruence.
  rewrite lookup_delete_ne by congruence. by apply O5.
Qed.

(** With an explicit non-empty version, [ingest] never runs [git] or
    queries GitHub: its outcome does not depend on them. *)
Theorem ingest_explicit_version_offline (gi : list string -> proc * option content)
    (tc : list string -> gmap string file -> proc) (rg rg' : list string -> proc)
    (hg hg' : string -> http_result) (md : content -> string) (ex : string -> string)
    (repo_name profile s : string) (w : world) :
  s <> EmptyString ->
  ingest (mkEnv gi tc rg hg md ex) repo_name profile (Some s) w
  = ingest (mkEnv gi tc rg' hg' md ex) repo_name profile (Some s) w.
Proof.
  intros Hs. assert (Hf : falsy (Some s) = false) by (apply String.eqb_neq; exact Hs).
  unfold ingest, ingest_body. rewrite Hf. reflexivity.
Qed.

End IngestProps.

Module Witnesses.
Import Manager Defs Cli Views Props ListReposProps ListFileProps ListIngestedProps SplitProps CountTokensProps GithubProps IngestProps.

Lemma list_repos_after_set_metadata_witness :
  assoc "repo1" (repositories (w_config (Scenario.start ∅ "t")))
    = Some (mkRepo "/src/repo1" "first repository" ["*.log"; "node_modules/"] None)
  /\ last_updated meta0 <> EmptyString
  /\ exists pre post,
    w_out (snd (list_repos (snd (set_metadata "repo1" meta0 (Scenario.start ∅ "t"))))) =
    app (w_out (snd (set_metadata "repo1" meta0 (Scenario.start ∅ "t"))))
      (app ["
=== Configured Repositories ==="] (app pre (app
     ["
" ++ "repo1" ++ ":";
      "  Description: " ++ "first repository";
      "  Source: " ++ "/src/repo1";
      "  Exclusions: " ++ Py.str_int 2 ++ " patterns";
      "  Last ingested: " ++ last_updated meta0;
      "  Last profile: " ++ meta_profile meta0;
      "  Tokens: " ++ Py.str_commas (token_count meta0);
      "  Characters: " ++ Py.str_commas (character_count meta0)] post))).
Proof.
  split; [reflexivity|]. split; [vm_compute; discriminate|].
  exact (list_repos_after_set_metadata "repo1" meta0
           (mkRepo "/src/repo1" "first repository" ["*.log"; "node_modules/"] None)
           (Scenario.start ∅ "t") eq_refl ltac:(vm_compute; discriminate)).
Defined.

Lemma list_ingested_size_figure_witness :
  0 <= content_size (Text "hello") < 2 ^ 53
  /\ list_file (fun _ => "t") ("a_v2_2k.md", mkFile (Text "hello") 20) listed_dir
     = (Ok tt, printed listed_dir (file_lines (fun _ => "t") ("a_v2_2k.md", mkFile (Text "hello") 20))).
Proof.
  assert (Hs : 0 <= content_size (Text "hello") < 2 ^ 53) by (change (content_size (Text "hello")) with 5; lia).
  split; [exact Hs|].
  apply (list_ingested_size_figure (fun _ => "t") ("a_v2_2k.md", mkFile (Text "hello") 20) listed_dir Hs).
Defined.


Lemma count_tokens_counter_output_witness :
  _count_tokens Scenario.stub_env "repo1_v1_1k.md" listed_dir = (Ok (1000, 3), listed_dir).
Proof.
  apply (count_tokens_counter_output Scenario.stub_env "repo1_v1_1k.md" listed_dir EmptyString "
" EmptyString "abc" 1000 10).
  - lia.
  - reflexivity.
  - vm_compute; reflexivity.
  - constructor.
  - right. exists "010"%char, EmptyString. split; reflexivity.
  - vm_compute; reflexivity.
Defined.

Lemma github_version_release_witness :
  _get_github_version release_env "/src/repo1" listed_dir = (Ok (Some "1.2.3"), listed_dir).
Proof.
  destruct (github_version_release release_env "/src/repo1" listed_dir
              "https://github.com/acme/tool.git
" EmptyString "acme" "tool" ".git") as (_ & H & _).
  - reflexivity.
  - vm_compute; reflexivity.
  - repeat constructor.
  - repeat constructor.
  - left; reflexivity.
  - exact (H [("tag_name", JStr "v1.2.3")] "v1.2.3" eq_refl eq_refl).
Defined.

Lemma ingest_success_witness :
  exists final ver h m rc prior,
    final = "repo1" ++ "_" ++ ver ++ "_" ++ h ++ ".md"
    /\ ver <> EmptyString /\ _format_token_count (token_count m) = Ok h
    /\ assoc "repo1" (repositories (w_config (Scenario.start ∅ "20260101_120000"))) = Some rc
    /\ w_odir (snd (ingest Scenario.stub_env "repo1" "standard" None (Scenario.start ∅ "20260101_120000"))) !! log_name
       = Some (mkFile (Json (JArr (prior ++ [log_entry "repo1" "standard" final m])%list)) 100).
Proof.
  assert (H : ingest Scenario.stub_env "repo1" "standard" None (Scenario.start ∅ "20260101_120000")
              = (Ok tt, snd (ingest Scenario.stub_env "repo1" "standard" None (Scenario.start ∅ "20260101_120000"))))
    by (vm_compute; reflexivity).
  destruct (ingest_success Scenario.stub_env "repo1" "standard" None _ _ H)
    as (final & ver & h & m & rc & prior & Hf & Hv & _ & _ & Hh & _ & _ & _ & Hrc & _ & _ & _ & _ & _ & _ & Hlog & _).
  exists final, ver, h, m, rc, prior. repeat split; assumption.
Defined.

Lemma ingest_explicit_version_offline_witness :
  ingest (mkEnv (run_gitingest Scenario.stub_env) (run_tc Scenario.stub_env) (run_git Scenario.stub_env)
            (http_get Scenario.stub_env) (md5_hex8 Scenario.stub_env) (expandvars Scenario.stub_env))
    "repo1" "standard" (Some "v9") (Scenario.start ∅ "20260101_120000")
  = ingest release_env "repo1" "standard" (Some "v9") (Scenario.start ∅ "20260101_120000").
Proof.
  apply ingest_explicit_version_offline. discriminate.
Defined.

End Witnesses.
